(** * TestONNXQuick.py: the ONNX model quick check, embedded in Rocq

    The script is a straight line of calls into three libraries ([os.path],
    [onnx], [onnxruntime]) wrapped in [print] statements and two nested
    [try]/[except Exception] blocks.  The embedding keeps that shape:

    - the libraries are an explicit [World] of oracles; a call either returns
      a value or raises a Python exception ([result]);
    - the script runs in a writer-and-error monad [M]: it appends to a log of
      [event]s (every line written and every library call, in program order)
      and finishes with a value or with a propagating exception;
    - [print] writes to the standard output of the world, which takes the
      line or raises (an encoding that cannot hold the text, a closed
      stream); a line that is refused is not in the log;
    - [try_except] is Python's [try: ... except Exception as e: ...].

    Exceptions are those derived from [Exception].  The file system is read
    through [os.stat] and does not change while the script runs (the script
    is sequential and writes nothing). *)

From Stdlib Require Import String Ascii ZArith List Bool Lia.
Import ListNotations.
Open Scope string_scope.
Open Scope Z_scope.
Open Scope list_scope.

(** ** Python values and exceptions *)

(** An exception object: its class name and [str(ex)]. *)
Inductive exn : Type :=
| Exn (cls msg : string).

Inductive result (A : Type) : Type :=
| Ok (a : A)
| Raise (e : exn).
Arguments Ok {A} a.
Arguments Raise {A} e.

(** ** The onnx protobuf messages the script reads *)

(** [TensorShapeProto.Dimension]: a oneof of [dim_value] (int64) and
    [dim_param] (a symbolic name), or neither. *)
Inductive Dimension : Type :=
| DimValue (v : Z)
| DimParam (s : string)
| DimUnset.

(** The protobuf accessor: an unset scalar field reads as 0. *)
Definition dim_value (d : Dimension) : Z :=
  match d with
  | DimValue v => v
  | DimParam _ => 0
  | DimUnset => 0
  end.

(** [ValueInfoProto], with [type.tensor_type.shape.dim] flattened. *)
Record ValueInfoProto : Type := {
  vi_name : string;
  vi_dim : list Dimension
}.

Record ModelProto : Type := {
  producer_name : string;
  model_version : Z;
  graph_input : list ValueInfoProto;
  graph_output : list ValueInfoProto
}.

(** ** The onnxruntime objects the script reads *)

(** An entry of [NodeArg.shape]: an int for a fixed dimension, a str for a
    symbolic one, [None] for an unknown one. *)
Inductive shape_entry : Type :=
| SInt (n : Z)
| SStr (s : string)
| SNone.

Record NodeArg : Type := {
  name : string;
  shape : list shape_entry
}.

Record InferenceSession : Type := {
  get_inputs : list NodeArg;
  get_outputs : list NodeArg
}.

(** ** The log: printed lines and library calls *)

(** An element of a printed graph shape: a number or the string 'dynamic'. *)
Inductive rendered : Type :=
| RValue (v : Z)
| RDynamic.

(** One [print] of the script; the constructor stands for the fixed text,
    its arguments for the interpolated values. *)
Inductive line : Type :=
| LHeader (base : string)            (* "=== {basename} ===" *)
| LFileMissing                       (* file does not exist *)
| LFileSize (bytes : Z)              (* size, shown as bytes/(1024*1024) MB *)
| LVerifying                         (* verifying the ONNX model... *)
| LStructureOk                       (* model structure valid *)
| LProducer (p : string)
| LVersion (v : Z)
| LInputsTitle
| LOutputsTitle
| LTensor (n : string) (s : list rendered)
| LSessionTest                       (* ONNX Runtime session test... *)
| LSessionOk
| LSessionInput (n : string) (s : list shape_entry)
| LSessionOutput (n : string) (s : list shape_entry)
| LCompat (verdict : bool)           (* YoloDotNet compatibility: mark *)
| LRuntimeError (e : exn)            (* ONNX Runtime error: {rt_ex} *)
| LVerifyFailed (e : exn)            (* ONNX verification failed: {ex} *)
| LBanner
| LDirMissing (dir : string)
| LResultTitle
| LSummary (total valid : Z)         (* {total} models in total, {valid} valid *)
| LWarning (k : nat).                (* the five lines of the final block *)

Inductive lib_call : Type :=
| CallLoad (path : string)                 (* onnx.load *)
| CallCheckModel (m : ModelProto)          (* onnx.checker.check_model *)
| CallInferenceSession (path : string).    (* ort.InferenceSession *)

Inductive event : Type :=
| Print (l : line)
| Call (c : lib_call).

(** ** The libraries *)

Record World : Type := {
  os_stat : string -> option Z;            (* st_size when os.stat succeeds *)
  onnx_load : string -> result ModelProto;
  check_model : ModelProto -> result unit;
  ort_InferenceSession : string -> result InferenceSession;
  stdout_write : line -> result unit       (* sys.stdout takes the line *)
}.

(** [os.path.exists]: [os.stat] succeeded. *)
Definition path_exists (w : World) (p : string) : bool :=
  match os_stat w p with Some _ => true | None => false end.

(** [os.path.getsize]: [os.stat(p).st_size], [OSError] when stat fails. *)
Definition getsize (w : World) (p : string) : result Z :=
  match os_stat w p with
  | Some n => Ok n
  | None =>
      Raise (Exn "FileNotFoundError"
               ("[Errno 2] No such file or directory: '" ++ p ++ "'")%string)
  end.

(** [posixpath.basename]: what follows the last slash. *)
Fixpoint basename_from (cur p : string) : string :=
  match p with
  | EmptyString => cur
  | String c r =>
      if Ascii.eqb c "/" then basename_from r r else basename_from cur r
  end.

Definition basename (p : string) : string := basename_from p p.

Fixpoint ends_with_slash (a : string) : bool :=
  match a with
  | EmptyString => false
  | String c EmptyString => Ascii.eqb c "/"
  | String _ r => ends_with_slash r
  end.

Definition starts_with_slash (b : string) : bool :=
  match b with
  | String c _ => Ascii.eqb c "/"
  | EmptyString => false
  end.

(** [posixpath.join] of two components. *)
Definition path_join (a b : string) : string :=
  if starts_with_slash b then b
  else if (String.eqb a "" || ends_with_slash a)%bool then (a ++ b)%string
  else (a ++ "/" ++ b)%string.

(** ** The monad of the script *)

Definition M (A : Type) : Type := (list event * result A)%type.

Definition ret {A} (a : A) : M A := ([], Ok a).

Definition bind {A B} (m : M A) (k : A -> M B) : M B :=
  match m with
  | (o, Ok a) => let (o', r) := k a in (o ++ o', r)
  | (o, Raise e) => (o, Raise e)
  end.

(** [try: m  except Exception as e: h e] *)
Definition try_except {A} (m : M A) (h : exn -> M A) : M A :=
  match m with
  | (o, Raise e) => let (o', r) := h e in (o ++ o', r)
  | (o, Ok a) => (o, Ok a)
  end.

(** [print]: the line reaches the output, or the write raises. *)
Definition print (w : World) (l : line) : M unit :=
  match stdout_write w l with
  | Ok _ => ([Print l], Ok tt)
  | Raise e => ([], Raise e)
  end.

(** A library call is logged, then returns or raises. *)
Definition call {A} (c : lib_call) (r : result A) : M A := ([Call c], r).

(** A Python operation that is not logged. *)
Definition lift {A} (r : result A) : M A := ([], r).

Definition log {A} (m : M A) : list event := fst m.
Definition outcome {A} (m : M A) : result A := snd m.

Notation "x <- c1 ;; c2" := (bind c1 (fun x => c2))
  (at level 61, c1 at next level, right associativity).
Notation "c1 ;; c2" := (bind c1 (fun _ => c2))
  (at level 61, right associativity).

(** [for x in xs: body x] *)
Fixpoint for_each {A} (xs : list A) (body : A -> M unit) : M unit :=
  match xs with
  | [] => ret tt
  | x :: rest => body x ;; for_each rest body
  end.

(** ** check_onnx_model *)

(** [dim.dim_value if dim.dim_value > 0 else 'dynamic'] *)
Definition render_dim (d : Dimension) : rendered :=
  if dim_value d >? 0 then RValue (dim_value d) else RDynamic.

(** The list comprehension of lines 38 and 43. *)
Definition render_shape (t : ValueInfoProto) : list rendered :=
  map render_dim (vi_dim t).

Definition print_tensor (w : World) (t : ValueInfoProto) : M unit :=
  print w (LTensor (vi_name t) (render_shape t)).

(** [xs[0]]: [IndexError] on an empty list. *)
Definition first {A} (xs : list A) : result A :=
  match xs with
  | x :: _ => Ok x
  | [] => Raise (Exn "IndexError" "list index out of range")
  end.

Definition type_name (d : shape_entry) : string :=
  match d with
  | SInt _ => "int"
  | SStr _ => "str"
  | SNone => "NoneType"
  end.

(** [dim > 0]: defined between ints, [TypeError] for a str or [None]. *)
Definition gt_zero (d : shape_entry) : result bool :=
  match d with
  | SInt n => Ok (n >? 0)
  | _ => Raise (Exn "TypeError"
           ("'>' not supported between instances of '" ++ type_name d
            ++ "' and 'int'")%string)
  end.

(** [all(dim > 0 for dim in s)]: stops at the first false comparison, and
    at the first comparison that raises. *)
Fixpoint all_positive (s : list shape_entry) : result bool :=
  match s with
  | [] => Ok true
  | d :: rest =>
      match gt_zero d with
      | Ok true => all_positive rest
      | Ok false => Ok false
      | Raise e => Raise e
      end
  end.

(** Lines 58-60; [and] evaluates its right operand only when the left one
    is true. *)
Definition is_compatible (input_info : NodeArg) : result bool :=
  if String.eqb (name input_info) "images" then
    if (Z.of_nat (length (shape input_info)) =? 4) then
      all_positive (shape input_info)
    else Ok false
  else Ok false.

(** Lines 49-63: the body of the inner [try]. *)
Definition session_test (w : World) (model_path : string) : M bool :=
  session <- call (CallInferenceSession model_path)
                  (ort_InferenceSession w model_path) ;;
  input_info <- lift (first (get_inputs session)) ;;
  output_info <- lift (first (get_outputs session)) ;;
  print w LSessionOk ;;
  print w (LSessionInput (name input_info) (shape input_info)) ;;
  print w (LSessionOutput (name output_info) (shape output_info)) ;;
  verdict <- lift (is_compatible input_info) ;;
  print w (LCompat verdict) ;;
  ret true.

(** Lines 26-47: the statements of the outer [try] that come before the
    inner one: loading, structural check, and the report of the graph. *)
Definition load_and_describe (w : World) (model_path : string) : M unit :=
  print w LVerifying ;;
  model <- call (CallLoad model_path) (onnx_load w model_path) ;;
  call (CallCheckModel model) (check_model w model) ;;
  print w LStructureOk ;;
  print w (LProducer (producer_name model)) ;;
  print w (LVersion (model_version model)) ;;
  print w LInputsTitle ;;
  for_each (graph_input model) (print_tensor w) ;;
  print w LOutputsTitle ;;
  for_each (graph_output model) (print_tensor w) ;;
  print w LSessionTest.

(** Lines 26-67: the body of the outer [try]. *)
Definition verify (w : World) (model_path : string) : M bool :=
  load_and_describe w model_path ;;
  try_except (session_test w model_path)
    (fun rt_ex => print w (LRuntimeError rt_ex) ;; ret false).

Definition check_onnx_model (w : World) (model_path : string) : M bool :=
  print w (LHeader (basename model_path)) ;;
  if negb (path_exists w model_path) then
    print w LFileMissing ;;
    ret false
  else
    file_size <- lift (getsize w model_path) ;;
    print w (LFileSize file_size) ;;
    try_except (verify w model_path)
      (fun ex => print w (LVerifyFailed ex) ;; ret false).

(** ** main *)

Definition models_dir : string :=
  "/mnt/d/000.Source/SafetyVisionMonitor/SafetyVisionMonitor/bin/Debug/net8.0-windows/Models".

Definition model_files : list string :=
  [ "yolov8s.onnx";
    "yolov8s-pose.onnx";
    "yolov8s-seg.onnx";
    "olov8s-cls.onnx";
    "yolov8s-obb.onnx" ].

(** Lines 94-99, started with the counters at [valid_models] and
    [total_models]; returns the counters after the last file. *)
Fixpoint validation_loop (w : World) (files : list string)
    (valid_models total_models : Z) : M (Z * Z) :=
  match files with
  | [] => ret (valid_models, total_models)
  | model_file :: rest =>
      let model_path := path_join models_dir model_file in
      let total_models := total_models + 1 in
      ok <- check_onnx_model w model_path ;;
      let valid_models := if ok : bool then valid_models + 1 else valid_models in
      validation_loop w rest valid_models total_models
  end.

Definition warning_block (w : World) : M unit :=
  print w (LWarning 1) ;; print w (LWarning 2) ;; print w (LWarning 3) ;;
  print w (LWarning 4) ;; print w (LWarning 5).

(** Lines 101-109. *)
Definition report (w : World) (valid_models total_models : Z) : M unit :=
  print w LResultTitle ;;
  print w (LSummary total_models valid_models) ;;
  if valid_models <? total_models then warning_block w else ret tt.

Definition main (w : World) : M unit :=
  print w LBanner ;;
  if negb (path_exists w models_dir) then
    print w (LDirMissing models_dir)
  else
    counters <- validation_loop w model_files 0 0 ;;
    report w (fst counters) (snd counters).

(** ** The standard output *)

(** Every [print] of the script returns: the output takes each line. *)
Class PrintsReturn (w : World) : Prop :=
  prints_return : forall l, stdout_write w l = Ok tt.





(** ** Observations on a log *)

(** The library calls of a log, in order. *)
Fixpoint calls (l : list event) : list lib_call :=
  match l with
  | [] => []
  | Call c :: rest => c :: calls rest
  | Print _ :: rest => calls rest
  end.

(** The graph tensors reported in a log: name and printed shape. *)
Fixpoint tensor_lines (l : list event) : list (string * list rendered) :=
  match l with
  | [] => []
  | Print (LTensor n s) :: rest => (n, s) :: tensor_lines rest
  | _ :: rest => tensor_lines rest
  end.

(** The prints of lines 33-44 for a loaded model. *)
Definition introspection (m : ModelProto) : list event :=
  [Print (LProducer (producer_name m)); Print (LVersion (model_version m));
   Print LInputsTitle]
  ++ map (fun t => Print (LTensor (vi_name t) (render_shape t))) (graph_input m)
  ++ [Print LOutputsTitle]
  ++ map (fun t => Print (LTensor (vi_name t) (render_shape t))) (graph_output m).

(** The inner [try] with its handler, as it stands in [verify]. *)
Definition guarded (w : World) (p : string) : M bool :=
  try_except (session_test w p)
    (fun rt_ex => print w (LRuntimeError rt_ex) ;; ret false).

(** The three lines printed once the session and its first input and
    output are at hand. *)
Definition session_lines (i o : NodeArg) : list event :=
  [Print LSessionOk; Print (LSessionInput (name i) (shape i));
   Print (LSessionOutput (name o) (shape o))].

(** The outer [try] with its handler, as it stands in [check_onnx_model]. *)
Definition guarded_verify (w : World) (p : string) : M bool :=
  try_except (verify w p)
    (fun ex => print w (LVerifyFailed ex) ;; ret false).

(** The events that only [main] itself produces. *)
Definition from_main (e : event) : bool :=
  match e with
  | Print LBanner | Print (LDirMissing _) | Print LResultTitle
  | Print (LSummary _ _) | Print (LWarning _) => true
  | _ => false
  end.

(** The last event of a log. *)
Definition ends_with (l : list event) (e : event) : Prop :=
  exists before, l = before ++ [e].

(** The five lines of the final block of [main]. *)
Definition warning_lines : list event :=
  [Print (LWarning 1); Print (LWarning 2); Print (LWarning 3);
   Print (LWarning 4); Print (LWarning 5)].

(** The final block of [main] closes the log. *)
Definition ends_with_warning_block (l : list event) : Prop :=
  exists before, l = before ++ warning_lines.




(** An entry that is a strictly positive int. *)
Definition positive_entry (d : shape_entry) : Prop :=
  exists n, d = SInt n /\ 0 < n.

(** The number of files of a list that [check_onnx_model] reports valid. *)
Fixpoint count_valid (w : World) (files : list string) : Z :=
  match files with
  | [] => 0
  | f :: rest =>
      (match outcome (check_onnx_model w (path_join models_dir f)) with
       | Ok true => 1
       | _ => 0
       end) + count_valid w rest
  end.

(** The counters [(valid_models, total_models)] after the first [k]
    iterations: the loop is a left-to-right pass, so its state after [k]
    files is that of the loop run on the first [k] files
    (lemma [validation_loop_split]). *)
Definition counters_after (w : World) (k : nat) : result (Z * Z) :=
  outcome (validation_loop w (firstn k model_files) 0 0).

(** The headers of a log: the names announced, in order. *)
Fixpoint headers (l : list event) : list string :=
  match l with
  | [] => []
  | Print (LHeader b) :: rest => b :: headers rest
  | _ :: rest => headers rest
  end.

(** The three lines that announce a failure of [check_onnx_model]. *)
Definition failure_line (e : event) : bool :=
  match e with
  | Print LFileMissing | Print (LVerifyFailed _) | Print (LRuntimeError _) =>
      true
  | _ => false
  end.

Definition verdict_line (e : event) : bool :=
  match e with
  | Print (LCompat _) => true
  | _ => false
  end.

(** The lines of [introspection]. *)
Definition introspection_line (e : event) : bool :=
  match e with
  | Print (LProducer _) | Print (LVersion _) | Print LInputsTitle
  | Print LOutputsTitle | Print (LTensor _ _) => true
  | _ => false
  end.

Fixpoint has_slash (s : string) : bool :=
  match s with
  | EmptyString => false
  | String c r => (Ascii.eqb c "/" || has_slash r)%bool
  end.

(** The library calls [check_onnx_model] may make on path [p]. *)
Definition call_on (w : World) (p : string) (c : lib_call) : Prop :=
  c = CallLoad p
  \/ (exists m, onnx_load w p = Ok m /\ c = CallCheckModel m)
  \/ c = CallInferenceSession p.

(** Everything up to and including the compatibility expression returns
    on path [p], with verdict [v]. *)
Definition verdict_reached (w : World) (p : string) (v : bool) : Prop :=
  path_exists w p = true
  /\ exists m s i o,
       onnx_load w p = Ok m /\ check_model w m = Ok tt
       /\ ort_InferenceSession w p = Ok s
       /\ first (get_inputs s) = Ok i /\ first (get_outputs s) = Ok o
       /\ is_compatible i = Ok v.

(** The line that concludes a run of [check_onnx_model]. *)
Definition concluding (e : event) : bool :=
  (verdict_line e || failure_line e)%bool.

(** ** Sample worlds *)

Module Samples.

(** A yolov8s export with fixed axes. *)
Definition yolo_proto : ModelProto :=
  {| producer_name := "pytorch";
     model_version := 0;
     graph_input :=
       [ {| vi_name := "images";
            vi_dim := [DimValue 1; DimValue 3; DimValue 640; DimValue 640] |} ];
     graph_output :=
       [ {| vi_name := "output0";
            vi_dim := [DimValue 1; DimValue 84; DimValue 8400] |} ] |}.

(** The same export with a symbolic batch axis. *)
Definition yolo_dynamic_proto : ModelProto :=
  {| producer_name := "pytorch";
     model_version := 0;
     graph_input :=
       [ {| vi_name := "images";
            vi_dim := [DimParam "batch"; DimValue 3; DimValue 640; DimValue 640] |} ];
     graph_output :=
       [ {| vi_name := "output0";
            vi_dim := [DimParam "batch"; DimValue 84; DimValue 8400] |} ] |}.

Definition output0 : NodeArg :=
  {| name := "output0"; shape := [SInt 1; SInt 84; SInt 8400] |}.

Definition images_static : NodeArg :=
  {| name := "images"; shape := [SInt 1; SInt 3; SInt 640; SInt 640] |}.

Definition images_dynamic : NodeArg :=
  {| name := "images"; shape := [SStr "batch"; SInt 3; SInt 640; SInt 640] |}.

(** A classifier whose input is not called images. *)
Definition input_224 : NodeArg :=
  {| name := "input"; shape := [SInt 1; SInt 3; SInt 224; SInt 224] |}.

Definition session_of (i : NodeArg) : InferenceSession :=
  {| get_inputs := [i]; get_outputs := [output0] |}.

(** Every path exists and holds model [m]; the runtime opens it with first
    input [i]. *)
Definition serving (m : ModelProto) (i : NodeArg) : World :=
  {| os_stat := fun _ => Some 44739242;
     onnx_load := fun _ => Ok m;
     check_model := fun _ => Ok tt;
     ort_InferenceSession := fun _ => Ok (session_of i);
     stdout_write := fun _ => Ok tt |}.

Definition w_static : World := serving yolo_proto images_static.
Definition w_dynamic : World := serving yolo_dynamic_proto images_dynamic.
Definition w_renamed : World := serving yolo_proto input_224.

(** Nothing exists. *)
Definition w_empty : World :=
  {| os_stat := fun _ => None;
     onnx_load := fun p => Raise (Exn "FileNotFoundError" p);
     check_model := fun _ => Ok tt;
     ort_InferenceSession := fun p => Raise (Exn "NoSuchFile" p);
     stdout_write := fun _ => Ok tt |}.

(** An output that encodes ASCII only: it takes the header and the tensor
    lines, whose fixed text is ASCII, and refuses the lines that hold
    Hangul or a pictograph. *)
Definition ascii_stdout (l : line) : result unit :=
  match l with
  | LHeader _ | LTensor _ _ => Ok tt
  | LFileMissing =>
      Raise (Exn "UnicodeEncodeError"
        "'ascii' codec can't encode character '\u274c' in position 0: ordinal not in range(128)")
  | LFileSize _ =>
      Raise (Exn "UnicodeEncodeError"
        "'ascii' codec can't encode characters in position 0-1: ordinal not in range(128)")
  | _ => Raise (Exn "UnicodeEncodeError" "ordinal not in range(128)")
  end.

(** Nothing exists, and the output is ASCII. *)
Definition w_empty_ascii : World :=
  {| os_stat := fun _ => None;
     onnx_load := fun p => Raise (Exn "FileNotFoundError" p);
     check_model := fun _ => Ok tt;
     ort_InferenceSession := fun p => Raise (Exn "NoSuchFile" p);
     stdout_write := ascii_stdout |}.


(** The fixed-axes export behind a stream that refuses only the tensor
    lines of the graph report (a wrapper around the output, say). *)
Definition w_static_no_tensor : World :=
  {| os_stat := fun _ => Some 44739242;
     onnx_load := fun _ => Ok yolo_proto;
     check_model := fun _ => Ok tt;
     ort_InferenceSession := fun _ => Ok (session_of images_static);
     stdout_write := fun l =>
       match l with
       | LTensor _ _ => Raise (Exn "RuntimeError" "tensor line refused")
       | _ => Ok tt
       end |}.

(** Only the models directory and yolov8s.onnx exist; the file is not a
    protobuf. *)
Definition w_corrupt : World :=
  {| os_stat := fun p =>
       if (String.eqb p models_dir
           || String.eqb p (path_join models_dir "yolov8s.onnx"))%bool
       then Some 12 else None;
     onnx_load := fun _ => Raise (Exn "DecodeError" "Error parsing message");
     check_model := fun _ => Ok tt;
     ort_InferenceSession := fun p => Raise (Exn "InvalidProtobuf" p);
     stdout_write := fun _ => Ok tt |}.

End Samples.


(** ** Further sample worlds *)

Module Cases.

(** A shape whose first entry is 0 and whose second is symbolic. *)
Definition images_zero_first : NodeArg :=
  {| name := "images"; shape := [SInt 0; SStr "batch"; SInt 640; SInt 640] |}.

(** A symbolic shape on an input that is not called images. *)
Definition input_dynamic : NodeArg :=
  {| name := "input"; shape := [SStr "batch"; SInt 3; SNone; SNone] |}.

(** A shape with an unknown last entry. *)
Definition images_unknown_width : NodeArg :=
  {| name := "images"; shape := [SInt 1; SInt 3; SInt 640; SNone] |}.

(** Every path exists and loads; the runtime opens a graph without
    inputs. *)
Definition w_no_inputs : World :=
  {| os_stat := fun _ => Some 1024;
     onnx_load := fun _ => Ok Samples.yolo_proto;
     check_model := fun _ => Ok tt;
     ort_InferenceSession := fun _ =>
       Ok {| get_inputs := []; get_outputs := [Samples.output0] |};
     stdout_write := fun _ => Ok tt |}.

(** The models directory exists and is empty. *)
Definition w_only_dir : World :=
  {| os_stat := fun p => if String.eqb p models_dir then Some 4096 else None;
     onnx_load := fun p => Raise (Exn "FileNotFoundError" p);
     check_model := fun _ => Ok tt;
     ort_InferenceSession := fun p => Raise (Exn "NoSuchFile" p);
     stdout_write := fun _ => Ok tt |}.

(** A model whose graph declares a negative and a zero dimension. *)
Definition odd_tensor : ValueInfoProto :=
  {| vi_name := "x";
     vi_dim := [DimValue (-1); DimValue 0; DimValue 7; DimParam "n"; DimUnset] |}.

End Cases.

(** * Properties *)

(** ** Paths *)

Example basename_of_model :
  basename "/mnt/d/Models/yolov8s-pose.onnx" = "yolov8s-pose.onnx".
Proof. reflexivity. Qed.

Example path_join_of_model :
  path_join models_dir "olov8s-cls.onnx" =
  (models_dir ++ "/olov8s-cls.onnx")%string.
Proof. reflexivity. Qed.

(** ** The two handlers *)


(** ** Running the script when every print returns *)

Lemma print_taken w l :
  stdout_write w l = Ok tt -> print w l = ([Print l], Ok tt).
Proof. intros H. unfold print. rewrite H. reflexivity. Qed.

Lemma print_returns w `{!PrintsReturn w} l : print w l = ([Print l], Ok tt).
Proof. apply print_taken, prints_return. Qed.

(** Rewrite the prints that stand ready, reduce, and go on. *)
Ltac run := repeat (progress (rewrite ?print_returns by exact _; cbn)).

Lemma for_each_print_tensor w `{!PrintsReturn w} (ts : list ValueInfoProto) :
  for_each ts (print_tensor w) =
  (map (fun t => Print (LTensor (vi_name t) (render_shape t))) ts, Ok tt).
Proof.
  induction ts as [|t ts IH]; [reflexivity|].
  cbn [for_each]. rewrite IH. unfold print_tensor.
  rewrite (print_returns w). reflexivity.
Qed.

Lemma guarded_session_raises w `{!PrintsReturn w} p e :
  ort_InferenceSession w p = Raise e ->
  guarded w p =
  ([Call (CallInferenceSession p); Print (LRuntimeError e)], Ok false).
Proof.
  intros H. unfold guarded, session_test. rewrite H. run. reflexivity.
Qed.

Lemma guarded_input_raises w `{!PrintsReturn w} p s e :
  ort_InferenceSession w p = Ok s -> first (get_inputs s) = Raise e ->
  guarded w p =
  ([Call (CallInferenceSession p); Print (LRuntimeError e)], Ok false).
Proof.
  intros H Hi. unfold guarded, session_test. rewrite H. run.
  rewrite Hi. run. reflexivity.
Qed.

Lemma guarded_output_raises w `{!PrintsReturn w} p s i e :
  ort_InferenceSession w p = Ok s -> first (get_inputs s) = Ok i ->
  first (get_outputs s) = Raise e ->
  guarded w p =
  ([Call (CallInferenceSession p); Print (LRuntimeError e)], Ok false).
Proof.
  intros H Hi Ho. unfold guarded, session_test. rewrite H. run.
  rewrite Hi. run. rewrite Ho. run. reflexivity.
Qed.

Lemma guarded_compat_raises w `{!PrintsReturn w} p s i o e :
  ort_InferenceSession w p = Ok s -> first (get_inputs s) = Ok i ->
  first (get_outputs s) = Ok o -> is_compatible i = Raise e ->
  guarded w p =
  (Call (CallInferenceSession p) :: session_lines i o
     ++ [Print (LRuntimeError e)], Ok false).
Proof.
  intros H Hi Ho Hc. unfold guarded, session_test. rewrite H. run.
  rewrite Hi. run. rewrite Ho. run. rewrite Hc. run. reflexivity.
Qed.

Lemma guarded_verdict w `{!PrintsReturn w} p s i o v :
  ort_InferenceSession w p = Ok s -> first (get_inputs s) = Ok i ->
  first (get_outputs s) = Ok o -> is_compatible i = Ok v ->
  guarded w p =
  (Call (CallInferenceSession p) :: session_lines i o
     ++ [Print (LCompat v)], Ok true).
Proof.
  intros H Hi Ho Hc. unfold guarded, session_test. rewrite H. run.
  rewrite Hi. run. rewrite Ho. run. rewrite Hc. run. reflexivity.
Qed.

(** Whatever the runtime does, the guarded block starts with the session
    constructor, makes no other library call, and returns a boolean. *)
Lemma guarded_returns w `{!PrintsReturn w} p :
  exists tail b,
    guarded w p = (Call (CallInferenceSession p) :: tail, Ok b)
    /\ calls tail = [] /\ tensor_lines tail = []
    /\ existsb from_main tail = false.
Proof.
  destruct (ort_InferenceSession w p) as [s|e] eqn:H.
  2:{ eexists _, _. split; [apply (guarded_session_raises _ _ _ H)|].
      repeat split. }
  destruct (first (get_inputs s)) as [i|e] eqn:Hi.
  2:{ eexists _, _. split; [apply (guarded_input_raises _ _ _ _ H Hi)|].
      repeat split. }
  destruct (first (get_outputs s)) as [o|e] eqn:Ho.
  2:{ eexists _, _. split; [apply (guarded_output_raises _ _ _ _ _ H Hi Ho)|].
      repeat split. }
  destruct (is_compatible i) as [v|e] eqn:Hc.
  - eexists _, _. split; [apply (guarded_verdict _ _ _ _ _ _ H Hi Ho Hc)|].
    repeat split.
  - eexists _, _. split; [apply (guarded_compat_raises _ _ _ _ _ _ H Hi Ho Hc)|].
    repeat split.
Qed.

Lemma load_and_describe_load_raises w `{!PrintsReturn w} p e :
  onnx_load w p = Raise e ->
  load_and_describe w p = ([Print LVerifying; Call (CallLoad p)], Raise e).
Proof.
  intros H. unfold load_and_describe. rewrite H. run. reflexivity.
Qed.

Lemma load_and_describe_check_raises w `{!PrintsReturn w} p m e :
  onnx_load w p = Ok m -> check_model w m = Raise e ->
  load_and_describe w p =
  ([Print LVerifying; Call (CallLoad p); Call (CallCheckModel m)], Raise e).
Proof.
  intros H Hc. unfold load_and_describe. rewrite H. run. rewrite Hc.
  reflexivity.
Qed.

Lemma load_and_describe_checked w `{!PrintsReturn w} p m u :
  onnx_load w p = Ok m -> check_model w m = Ok u ->
  load_and_describe w p =
  ([Print LVerifying; Call (CallLoad p); Call (CallCheckModel m);
    Print LStructureOk] ++ introspection m ++ [Print LSessionTest],
   Ok tt).
Proof.
  intros H Hc. unfold load_and_describe. rewrite H. run. rewrite Hc. run.
  rewrite !(for_each_print_tensor w). cbn.
  rewrite <- !app_assoc. reflexivity.
Qed.

Lemma verify_load_raises w `{!PrintsReturn w} p e :
  onnx_load w p = Raise e ->
  verify w p = ([Print LVerifying; Call (CallLoad p)], Raise e).
Proof.
  intros H. unfold verify.
  rewrite (load_and_describe_load_raises _ _ _ H). reflexivity.
Qed.

Lemma verify_check_raises w `{!PrintsReturn w} p m e :
  onnx_load w p = Ok m -> check_model w m = Raise e ->
  verify w p =
  ([Print LVerifying; Call (CallLoad p); Call (CallCheckModel m)], Raise e).
Proof.
  intros H Hc. unfold verify.
  rewrite (load_and_describe_check_raises _ _ _ _ H Hc). reflexivity.
Qed.

Lemma verify_checked w `{!PrintsReturn w} p m u :
  onnx_load w p = Ok m -> check_model w m = Ok u ->
  verify w p =
  ([Print LVerifying; Call (CallLoad p); Call (CallCheckModel m);
    Print LStructureOk] ++ introspection m ++ [Print LSessionTest]
     ++ log (guarded w p),
   outcome (guarded w p)).
Proof.
  intros H Hc. unfold verify. fold (guarded w p).
  rewrite (load_and_describe_checked _ _ _ _ H Hc).
  destruct (guarded w p) as [o r]. cbn -[introspection].
  rewrite <- !app_assoc. reflexivity.
Qed.

Lemma check_onnx_model_missing w `{!PrintsReturn w} p :
  os_stat w p = None ->
  check_onnx_model w p =
  ([Print (LHeader (basename p)); Print LFileMissing], Ok false).
Proof.
  intros H. unfold check_onnx_model, path_exists. rewrite H.
  rewrite !(print_returns w). reflexivity.
Qed.

Lemma check_onnx_model_present w `{!PrintsReturn w} p sz :
  os_stat w p = Some sz ->
  check_onnx_model w p =
  (Print (LHeader (basename p)) :: Print (LFileSize sz)
     :: log (guarded_verify w p),
   outcome (guarded_verify w p)).
Proof.
  intros H. unfold check_onnx_model, path_exists, getsize. rewrite H.
  fold (guarded_verify w p).
  destruct (guarded_verify w p) as [o r].
  rewrite (print_returns w). cbn [negb bind lift].
  rewrite (print_returns w). reflexivity.
Qed.

Lemma guarded_verify_load_raises w `{!PrintsReturn w} p e :
  onnx_load w p = Raise e ->
  guarded_verify w p =
  ([Print LVerifying; Call (CallLoad p); Print (LVerifyFailed e)], Ok false).
Proof.
  intros H. unfold guarded_verify.
  rewrite (verify_load_raises _ _ _ H). unfold try_except.
  rewrite (print_returns w). reflexivity.
Qed.

Lemma guarded_verify_check_raises w `{!PrintsReturn w} p m e :
  onnx_load w p = Ok m -> check_model w m = Raise e ->
  guarded_verify w p =
  ([Print LVerifying; Call (CallLoad p); Call (CallCheckModel m);
    Print (LVerifyFailed e)], Ok false).
Proof.
  intros H Hc. unfold guarded_verify.
  rewrite (verify_check_raises _ _ _ _ H Hc). unfold try_except.
  rewrite (print_returns w). reflexivity.
Qed.

(** Once the model is loaded and checked the outer handler never runs:
    the guarded session block returns. *)
Lemma guarded_verify_checked w `{!PrintsReturn w} p m u :
  onnx_load w p = Ok m -> check_model w m = Ok u ->
  guarded_verify w p =
  ([Print LVerifying; Call (CallLoad p); Call (CallCheckModel m);
    Print LStructureOk] ++ introspection m ++ [Print LSessionTest]
     ++ log (guarded w p),
   outcome (guarded w p)).
Proof.
  intros H Hc. unfold guarded_verify.
  rewrite (verify_checked _ _ _ _ H Hc).
  destruct (guarded_returns w p) as (tail & b & Hg & _).
  rewrite Hg. reflexivity.
Qed.

(** ** Observations distribute over a log *)

Lemma calls_app l1 l2 : calls (l1 ++ l2) = calls l1 ++ calls l2.
Proof.
  induction l1 as [|[x|c] l1 IH]; cbn; rewrite ?IH; reflexivity.
Qed.

Lemma tensor_lines_app l1 l2 :
  tensor_lines (l1 ++ l2) = tensor_lines l1 ++ tensor_lines l2.
Proof.
  induction l1 as [|[x|c] l1 IH]; cbn; [reflexivity| |exact IH].
  destruct x; cbn; rewrite ?IH; reflexivity.
Qed.

Lemma calls_tensor_prints (ts : list ValueInfoProto) :
  calls (map (fun t => Print (LTensor (vi_name t) (render_shape t))) ts) = [].
Proof. induction ts; cbn; auto. Qed.

Lemma tensor_lines_tensor_prints (ts : list ValueInfoProto) :
  tensor_lines (map (fun t => Print (LTensor (vi_name t) (render_shape t))) ts)
  = map (fun t => (vi_name t, render_shape t)) ts.
Proof. induction ts; cbn; congruence. Qed.

Lemma from_main_tensor_prints (ts : list ValueInfoProto) :
  existsb from_main
    (map (fun t => Print (LTensor (vi_name t) (render_shape t))) ts) = false.
Proof. induction ts; cbn; auto. Qed.

Lemma calls_introspection m : calls (introspection m) = [].
Proof.
  unfold introspection. rewrite !calls_app, !calls_tensor_prints. reflexivity.
Qed.

Lemma tensor_lines_introspection m :
  tensor_lines (introspection m) =
  map (fun t => (vi_name t, render_shape t)) (graph_input m ++ graph_output m).
Proof.
  unfold introspection.
  rewrite !tensor_lines_app, !tensor_lines_tensor_prints, map_app.
  reflexivity.
Qed.


Lemma existsb_from_main_app l1 l2 :
  existsb from_main (l1 ++ l2) =
  (existsb from_main l1 || existsb from_main l2)%bool.
Proof. apply existsb_app. Qed.

Lemma from_main_introspection m : existsb from_main (introspection m) = false.
Proof.
  unfold introspection.
  rewrite !existsb_from_main_app, !from_main_tensor_prints. reflexivity.
Qed.

(** ** check_onnx_model returns when every print does *)

(** With the file system read once (see the header), [getsize] cannot fail
    after [exists] succeeded, and both [try] blocks end in a handler that
    returns when its print does: the call ends with a boolean and prints
    nothing of [main]. *)
Lemma check_onnx_model_total w `{!PrintsReturn w} p :
  exists l b,
    check_onnx_model w p = (l, Ok b) /\ existsb from_main l = false.
Proof.
  destruct (os_stat w p) as [sz|] eqn:Hs.
  2:{ rewrite (check_onnx_model_missing _ _ Hs). eauto. }
  rewrite (check_onnx_model_present _ _ _ Hs).
  destruct (onnx_load w p) as [m|e] eqn:Hl.
  2:{ rewrite (guarded_verify_load_raises _ _ _ Hl). cbn. eauto. }
  destruct (check_model w m) as [u|e] eqn:Hc.
  2:{ rewrite (guarded_verify_check_raises _ _ _ _ Hl Hc). cbn. eauto. }
  rewrite (guarded_verify_checked _ _ _ _ Hl Hc).
  destruct (guarded_returns w p) as (tail & b & Hg & _ & _ & Hm).
  rewrite Hg. cbn [log outcome fst snd]. eexists _, b. split; [reflexivity|].
  cbn -[introspection].
  rewrite !existsb_from_main_app, from_main_introspection. exact Hm.
Qed.

(** ** A path that does not exist *)

(** The missing-file run at an output that encodes ASCII only: the header
    is written, the message of line 17 is refused, and the
    [UnicodeEncodeError] reaches the caller. *)
Lemma missing_file_print_raises :
  path_exists Samples.w_empty_ascii "/models/yolov8s.onnx" = false
  /\ check_onnx_model Samples.w_empty_ascii "/models/yolov8s.onnx" =
       ([Print (LHeader "yolov8s.onnx")],
        Raise (Exn "UnicodeEncodeError"
          "'ascii' codec can't encode character '\u274c' in position 0: ordinal not in range(128)"))
  /\ outcome (check_onnx_model Samples.w_empty_ascii "/models/yolov8s.onnx")
       <> Ok false.
Proof. repeat split. discriminate. Qed.

(** C8, amended. A path that does not exist: neither the loader, the
    checker nor the session constructor is called; and when the output takes
    the header and the missing-file message, these two lines are all that is
    printed and the function returns [False] without raising. *)
Theorem missing_file_returns_false w p :
  path_exists w p = false ->
  calls (log (check_onnx_model w p)) = []
  /\ (stdout_write w (LHeader (basename p)) = Ok tt ->
      stdout_write w LFileMissing = Ok tt ->
      check_onnx_model w p =
        ([Print (LHeader (basename p)); Print LFileMissing], Ok false)).
Proof.
  intros H. unfold check_onnx_model, print. rewrite H. cbn [negb].
  destruct (stdout_write w (LHeader (basename p))) as [[]|e1];
    [|split; [reflexivity|discriminate]].
  destruct (stdout_write w LFileMissing) as [[]|e2];
    split; try reflexivity; intros _ ?; discriminate.
Qed.

Lemma missing_file_returns_false_witness :
  calls (log (check_onnx_model Samples.w_empty "/models/yolov8s.onnx")) = []
  /\ check_onnx_model Samples.w_empty "/models/yolov8s.onnx" =
       ([Print (LHeader "yolov8s.onnx"); Print LFileMissing], Ok false).
Proof.
  split.
  - apply (missing_file_returns_false Samples.w_empty "/models/yolov8s.onnx").
    reflexivity.
  - apply (missing_file_returns_false Samples.w_empty "/models/yolov8s.onnx");
      reflexivity.
Defined.

Lemma ends_with_last e : ends_with [e] e.
Proof. exists []. reflexivity. Qed.

Lemma ends_with_cons a l e : ends_with l e -> ends_with (a :: l) e.
Proof. intros [b ->]. exists (a :: b). reflexivity. Qed.

Lemma ends_with_app l1 l2 e : ends_with l2 e -> ends_with (l1 ++ l2) e.
Proof. intros [b ->]. exists (l1 ++ b). apply app_assoc. Qed.

Ltac ends_with_tail :=
  repeat first [ apply ends_with_last | apply ends_with_cons
               | apply ends_with_app ].

(** ** What the two handlers catch *)








(** A print of the graph report that is refused is an exception of the
    outer [try] like any other: the outer handler reports it. *)
Example refused_tensor_line_is_caught :
  check_onnx_model Samples.w_static_no_tensor "/models/yolov8s.onnx" =
  ([Print (LHeader "yolov8s.onnx"); Print (LFileSize 44739242);
    Print LVerifying; Call (CallLoad "/models/yolov8s.onnx");
    Call (CallCheckModel Samples.yolo_proto); Print LStructureOk;
    Print (LProducer "pytorch"); Print (LVersion 0); Print LInputsTitle;
    Print (LVerifyFailed (Exn "RuntimeError" "tensor line refused"))],
   Ok false).
Proof. reflexivity. Qed.



(** C6. Once the model is loaded and checked, and every print returning,
    every graph input and then
    every graph output is reported, in order, with each dimension shown as
    its [dim_value] when that is strictly positive and as 'dynamic' when it
    is zero or negative. *)
Theorem graph_shapes_rendered w p m :
  PrintsReturn w ->
  path_exists w p = true ->
  onnx_load w p = Ok m ->
  check_model w m = Ok tt ->
  tensor_lines (log (check_onnx_model w p)) =
    map (fun t => (vi_name t, map render_dim (vi_dim t)))
        (graph_input m ++ graph_output m)
  /\ forall d,
       (0 < dim_value d -> render_dim d = RValue (dim_value d))
       /\ (dim_value d <= 0 -> render_dim d = RDynamic).
Proof.
  unfold path_exists. intros Hout Hex Hl Hc.
  destruct (os_stat w p) as [sz|] eqn:Hs; [clear Hex|discriminate].
  split.
  - rewrite (check_onnx_model_present _ _ _ Hs). cbn [log outcome fst snd].
    rewrite (guarded_verify_checked _ _ _ _ Hl Hc).
    destruct (guarded_returns w p) as (tail & b & Hg & _ & Ht & _).
    rewrite Hg. cbn -[introspection].
    rewrite !tensor_lines_app, tensor_lines_introspection. cbn.
    rewrite Ht, app_nil_r. reflexivity.
  - intros d. unfold render_dim. split; intros H.
    + destruct (Z.gtb_spec (dim_value d) 0); [reflexivity|lia].
    + destruct (Z.gtb_spec (dim_value d) 0); [lia|reflexivity].
Qed.

Lemma graph_shapes_rendered_witness :
  tensor_lines (log (check_onnx_model Samples.w_dynamic "/models/yolov8s.onnx"))
    = [ ("images", [RDynamic; RValue 3; RValue 640; RValue 640]);
        ("output0", [RDynamic; RValue 84; RValue 8400]) ].
Proof.
  apply (graph_shapes_rendered Samples.w_dynamic "/models/yolov8s.onnx"
           Samples.yolo_dynamic_proto (fun _ => eq_refl)); reflexivity.
Defined.

(** ** The compatibility verdict *)

Lemma all_positive_true_iff s :
  all_positive s = Ok true <-> Forall positive_entry s.
Proof.
  induction s as [|d s IH]; cbn [all_positive].
  - split; [constructor|reflexivity].
  - destruct d as [n| |]; cbn [gt_zero].
    + destruct (Z.gtb_spec n 0) as [Hn|Hn].
      * rewrite IH. split.
        -- intros Hs. constructor; [exists n; split; [reflexivity|lia]|exact Hs].
        -- intros Hs. inversion Hs; assumption.
      * split; [discriminate|].
        intros Hs. inversion Hs as [|? ? (k & Hk & Hpos) _]; subst.
        injection Hk as <-. lia.
    + split; [discriminate|].
      intros Hs. inversion Hs as [|? ? (k & Hk & _) _]. discriminate.
    + split; [discriminate|].
      intros Hs. inversion Hs as [|? ? (k & Hk & _) _]. discriminate.
Qed.

(** The verdict is true exactly under the three conditions. *)
Lemma is_compatible_true_iff i :
  is_compatible i = Ok true <->
  name i = "images" /\ length (shape i) = 4%nat
  /\ Forall positive_entry (shape i).
Proof.
  unfold is_compatible.
  destruct (String.eqb_spec (name i) "images") as [Hn|Hn].
  - destruct (Z.eqb_spec (Z.of_nat (length (shape i))) 4) as [Hl|Hl].
    + rewrite all_positive_true_iff. intuition lia.
    + split; [discriminate|]. intros (_ & Hl' & _). lia.
  - split; [discriminate|]. intros (Hn' & _). contradiction.
Qed.

(** On a shape of ints only, the verdict is a boolean. *)
Lemma all_positive_ints s :
  Forall (fun d => exists n, d = SInt n) s -> exists v, all_positive s = Ok v.
Proof.
  induction 1 as [|d s (n & ->) _ IH]; cbn; [eauto|].
  destruct (n >? 0); eauto.
Qed.

Lemma is_compatible_ints i :
  Forall (fun d => exists n, d = SInt n) (shape i) ->
  exists v, is_compatible i = Ok v.
Proof.
  intros H. unfold is_compatible.
  destruct (String.eqb _ _); [|eauto].
  destruct (_ =? 4); [|eauto]. apply all_positive_ints, H.
Qed.

(** C1 at a model exported with a symbolic batch axis: the first input is
    called images and has four dimensions, one of them not strictly
    positive, yet the verdict is not false: the comparison of the str with 0
    raises, no verdict line is printed, and the model is reported invalid. *)
Theorem is_compatible_symbolic_batch_raises :
  name Samples.images_dynamic = "images"
  /\ length (shape Samples.images_dynamic) = 4%nat
  /\ ~ Forall positive_entry (shape Samples.images_dynamic)
  /\ is_compatible Samples.images_dynamic =
       Raise (Exn "TypeError"
                "'>' not supported between instances of 'str' and 'int'")
  /\ is_compatible Samples.images_dynamic <> Ok false
  /\ outcome (check_onnx_model Samples.w_dynamic "/models/yolov8s.onnx")
       = Ok false
  /\ forall v, ~ In (Print (LCompat v))
                   (log (check_onnx_model Samples.w_dynamic
                           "/models/yolov8s.onnx")).
Proof.
  repeat split.
  - intros H. inversion H as [|? ? (n & Hn & _) _]. discriminate.
  - discriminate.
  - intros v H. cbn in H.
    repeat (destruct H as [H|H]; [discriminate|]). exact H.
Qed.

(** C7. There is a model whose session is created, whose first input is
    called images and has four dimensions, one of them symbolic, for which
    the comparison with 0 raises a [TypeError]; the inner handler catches
    it, prints the runtime-error line after the session-created line, and
    [check_onnx_model] returns [False]. *)
Theorem symbolic_dim_reported_as_runtime_error :
  exists w p s i msg,
    path_exists w p = true
    /\ ort_InferenceSession w p = Ok s
    /\ first (get_inputs s) = Ok i
    /\ name i = "images"
    /\ length (shape i) = 4%nat
    /\ (exists d, In d (shape i) /\ forall n, d <> SInt n)
    /\ is_compatible i = Raise (Exn "TypeError" msg)
    /\ outcome (check_onnx_model w p) = Ok false
    /\ In (Call (CallInferenceSession p)) (log (check_onnx_model w p))
    /\ In (Print LSessionOk) (log (check_onnx_model w p))
    /\ ends_with (log (check_onnx_model w p))
         (Print (LRuntimeError (Exn "TypeError" msg))).
Proof.
  exists Samples.w_dynamic, "/models/yolov8s.onnx",
    (Samples.session_of Samples.images_dynamic), Samples.images_dynamic,
    "'>' not supported between instances of 'str' and 'int'".
  repeat split.
  - exists (SStr "batch"). split; [left; reflexivity|discriminate].
  - cbn. tauto.
  - cbn. tauto.
  - cbn. ends_with_tail.
Qed.

(** ** What the return value depends on *)

(** The reading of C2 under which a model whose session opens but whose
    verdict is false is not reported valid does not hold: the renamed
    classifier input gives verdict false and return value [True]. *)
Lemma valid_despite_failed_compatibility :
  ~ (forall w p,
       outcome (check_onnx_model w p) = Ok true ->
       exists s i,
         ort_InferenceSession w p = Ok s /\ first (get_inputs s) = Ok i
         /\ is_compatible i = Ok true).
Proof.
  intros H.
  destruct (H Samples.w_renamed "/models/yolov8s.onnx" eq_refl)
    as (s & i & Hs & Hi & Hc).
  cbn in Hs. injection Hs as <-. cbn in Hi. injection Hi as <-.
  discriminate Hc.
Qed.

(** C2, amended. Every print returning, [check_onnx_model] returns [True]
    only when the file
    exists, the model loads and passes the structural check and the
    inference session is created; the compatibility verdict is printed and
    does not enter the return value: whatever the verdict, true or false,
    the function returns [True]. *)
Theorem valid_means_session_created w p :
  PrintsReturn w ->
  (outcome (check_onnx_model w p) = Ok true ->
   path_exists w p = true
   /\ exists m s,
        onnx_load w p = Ok m /\ check_model w m = Ok tt
        /\ ort_InferenceSession w p = Ok s)
  /\ (forall m s i o v,
        path_exists w p = true ->
        onnx_load w p = Ok m -> check_model w m = Ok tt ->
        ort_InferenceSession w p = Ok s ->
        first (get_inputs s) = Ok i -> first (get_outputs s) = Ok o ->
        is_compatible i = Ok v ->
        outcome (check_onnx_model w p) = Ok true
        /\ ends_with (log (check_onnx_model w p)) (Print (LCompat v))).
Proof.
  intros Hout. unfold path_exists. split.
  - destruct (os_stat w p) as [sz|] eqn:Hs.
    2:{ rewrite (check_onnx_model_missing _ _ Hs). discriminate. }
    rewrite (check_onnx_model_present _ _ _ Hs). cbn [log outcome fst snd].
    destruct (onnx_load w p) as [m|e] eqn:Hl.
    2:{ rewrite (guarded_verify_load_raises _ _ _ Hl). discriminate. }
    destruct (check_model w m) as [[]|e] eqn:Hc.
    2:{ rewrite (guarded_verify_check_raises _ _ _ _ Hl Hc). discriminate. }
    rewrite (guarded_verify_checked _ _ _ _ Hl Hc). cbn [log outcome fst snd].
    destruct (ort_InferenceSession w p) as [s|e] eqn:Hr.
    2:{ rewrite (guarded_session_raises _ _ _ Hr). discriminate. }
    intros _. split; [reflexivity|]. exists m, s. auto.
  - intros m s i o v Hex Hl Hc Hr Hi Ho Hv.
    destruct (os_stat w p) as [sz|] eqn:Hs; [clear Hex|discriminate].
    rewrite (check_onnx_model_present _ _ _ Hs). cbn [log outcome fst snd].
    rewrite (guarded_verify_checked _ _ _ _ Hl Hc),
      (guarded_verdict _ _ _ _ _ _ Hr Hi Ho Hv).
    split; [reflexivity|]. cbn [fst log]. ends_with_tail.
Qed.

Lemma valid_means_session_created_witness :
  outcome (check_onnx_model Samples.w_renamed "/models/yolov8s.onnx") = Ok true
  /\ ends_with (log (check_onnx_model Samples.w_renamed "/models/yolov8s.onnx"))
       (Print (LCompat false)).
Proof.
  apply (proj2 (valid_means_session_created Samples.w_renamed
                  "/models/yolov8s.onnx" (fun _ => eq_refl))
           Samples.yolo_proto (Samples.session_of Samples.input_224)
           Samples.input_224 Samples.output0 false);
    reflexivity.
Defined.

(** ** main *)

Lemma count_valid_bounds w files :
  0 <= count_valid w files <= Z.of_nat (length files).
Proof.
  induction files as [|f files IH]; cbn [count_valid length]; [lia|].
  destruct (outcome _) as [[|]|]; lia.
Qed.

(** The loop runs to the end of the list: its log is the logs of the calls
    in order, and its counters grow by the number of valid files and by the
    number of files. *)
Lemma validation_loop_run w `{!PrintsReturn w} files valid total :
  validation_loop w files valid total =
  (flat_map (fun f => log (check_onnx_model w (path_join models_dir f))) files,
   Ok (valid + count_valid w files, total + Z.of_nat (length files))).
Proof.
  revert valid total.
  induction files as [|f files IH]; intros valid total.
  - cbn [validation_loop flat_map count_valid length]. unfold ret.
    change (Z.of_nat 0) with 0. rewrite !Z.add_0_r. reflexivity.
  - cbn [validation_loop flat_map count_valid length].
    destruct (check_onnx_model_total w (path_join models_dir f))
      as (l & b & Hrun & _).
    rewrite Hrun. cbn [bind log outcome fst snd]. rewrite IH.
    f_equal. f_equal. f_equal; [destruct b; lia | lia].
Qed.

Lemma count_valid_app w pre post :
  count_valid w (pre ++ post) = count_valid w pre + count_valid w post.
Proof.
  induction pre as [|f pre IH]; cbn [count_valid app]; [reflexivity|].
  rewrite IH. lia.
Qed.

(** Running the loop over [pre ++ post] is running it over [pre] and
    going on over [post] from the counters reached. *)
Lemma validation_loop_split w `{!PrintsReturn w} pre post valid total :
  validation_loop w (pre ++ post) valid total =
  (c <- validation_loop w pre valid total ;;
   validation_loop w post (fst c) (snd c)).
Proof.
  rewrite !(validation_loop_run w). cbn [bind fst snd].
  rewrite (validation_loop_run w), flat_map_app, count_valid_app, length_app.
  f_equal. f_equal. f_equal; lia.
Qed.

Lemma validation_loop_quiet w `{!PrintsReturn w} files :
  existsb from_main
    (flat_map (fun f => log (check_onnx_model w (path_join models_dir f)))
       files) = false.
Proof.
  induction files as [|f files IH]; [reflexivity|].
  cbn [flat_map]. rewrite existsb_from_main_app, IH.
  destruct (check_onnx_model_total w (path_join models_dir f))
    as (l & b & Hrun & Hq).
  rewrite Hrun. cbn [log fst]. rewrite Hq. reflexivity.
Qed.

Lemma not_from_main l e :
  existsb from_main l = false -> In e l -> from_main e = false.
Proof.
  intros Hq Hin. destruct (from_main e) eqn:He; [|reflexivity].
  assert (existsb from_main l = true) by (apply existsb_exists; eauto).
  congruence.
Qed.

Lemma report_run w `{!PrintsReturn w} valid total :
  report w valid total =
  (Print LResultTitle :: Print (LSummary total valid)
     :: (if valid <? total then warning_lines else []),
   Ok tt).
Proof.
  unfold report, warning_block. rewrite !(print_returns w).
  destruct (valid <? total); reflexivity.
Qed.

Lemma main_run w `{!PrintsReturn w} :
  path_exists w models_dir = true ->
  main w =
  (Print LBanner
     :: flat_map (fun f => log (check_onnx_model w (path_join models_dir f)))
          model_files
     ++ log (report w (count_valid w model_files)
               (Z.of_nat (length model_files))),
   Ok tt).
Proof.
  intros Hex. unfold main. rewrite Hex. cbn [negb].
  rewrite (print_returns w), (validation_loop_run w).
  cbn [bind fst snd]. rewrite !Z.add_0_l, (report_run w). reflexivity.
Qed.

Lemma report_log w `{!PrintsReturn w} valid total :
  log (report w valid total) =
  Print LResultTitle :: Print (LSummary total valid)
    :: (if valid <? total then warning_lines else []).
Proof.
  rewrite (report_run w). reflexivity.
Qed.

(** C5. When the models directory exists and every print returns, [main]
    runs [check_onnx_model]
    on the five hardcoded names joined to the directory, in the order of the
    list, and on nothing else; the total it reports is 5 whatever the files
    are. *)
Theorem main_checks_five_fixed_files w :
  PrintsReturn w ->
  path_exists w models_dir = true ->
  exists valid,
    main w =
      (Print LBanner
         :: flat_map
              (fun f => log (check_onnx_model w (models_dir ++ "/" ++ f)%string))
              [ "yolov8s.onnx"; "yolov8s-pose.onnx"; "yolov8s-seg.onnx";
                "olov8s-cls.onnx"; "yolov8s-obb.onnx" ]
         ++ log (report w valid 5),
       Ok tt)
    /\ In (Print (LSummary 5 valid)) (log (main w))
    /\ forall total v,
         In (Print (LSummary total v)) (log (main w)) -> total = 5.
Proof.
  intros Hout Hex. exists (count_valid w model_files).
  rewrite (main_run _ Hex). split; [reflexivity|]. cbn [log fst]. split.
  - right. apply in_or_app. right. rewrite (report_log w). right. left. reflexivity.
  - intros total v [H|H]; [discriminate|].
    apply in_app_or in H. destruct H as [H|H].
    + apply (not_from_main _ _ (validation_loop_quiet w model_files)) in H.
      discriminate.
    + rewrite (report_log w) in H. destruct H as [H|[H|H]]; [discriminate| |].
      * injection H as <- _. reflexivity.
      * destruct (_ <? _); cbn in H; [|contradiction].
        repeat (destruct H as [H|H]; [discriminate|]). contradiction.
Qed.

Lemma main_checks_five_fixed_files_witness :
  exists valid,
    main Samples.w_corrupt =
      (Print LBanner
         :: flat_map
              (fun f => log (check_onnx_model Samples.w_corrupt
                               (models_dir ++ "/" ++ f)%string))
              [ "yolov8s.onnx"; "yolov8s-pose.onnx"; "yolov8s-seg.onnx";
                "olov8s-cls.onnx"; "yolov8s-obb.onnx" ]
         ++ log (report Samples.w_corrupt valid 5),
       Ok tt)
    /\ In (Print (LSummary 5 valid)) (log (main Samples.w_corrupt))
    /\ forall total v,
         In (Print (LSummary total v)) (log (main Samples.w_corrupt)) ->
         total = 5.
Proof.
  apply (main_checks_five_fixed_files Samples.w_corrupt (fun _ => eq_refl)).
  reflexivity.
Defined.

(** C9. Every print returning, after each iteration of the loop of [main]
    the counters satisfy
    0 <= valid_models <= total_models, [total_models] is the number of files
    processed so far and [valid_models] the number of those for which
    [check_onnx_model] returned [True]; after the last one, the warning
    block is printed exactly when valid_models < total_models. *)
Theorem validation_loop_invariant w :
  PrintsReturn w ->
  (forall k, (k <= length model_files)%nat ->
     exists valid total,
       counters_after w k = Ok (valid, total)
       /\ 0 <= valid <= total
       /\ total = Z.of_nat k
       /\ valid = count_valid w (firstn k model_files))
  /\ (path_exists w models_dir = true ->
      exists valid total,
        counters_after w (length model_files) = Ok (valid, total)
        /\ (ends_with_warning_block (log (main w)) <-> valid < total)
        /\ ((exists k, In (Print (LWarning k)) (log (main w)))
            <-> valid < total)).
Proof.
  intros Hout. split.
  - intros k Hk. unfold counters_after. rewrite (validation_loop_run w).
    cbn [outcome snd]. rewrite !Z.add_0_l.
    eexists _, _. split; [reflexivity|].
    pose proof (count_valid_bounds w (firstn k model_files)) as Hb.
    rewrite length_firstn, Nat.min_l in * by exact Hk.
    repeat split; lia.
  - intros Hex. unfold counters_after. rewrite (validation_loop_run w).
    cbn [outcome snd]. rewrite !Z.add_0_l.
    eexists _, _. split; [rewrite firstn_all; reflexivity|].
    rewrite (main_run _ Hex). cbn [log fst]. rewrite (report_log w).
    pose proof (validation_loop_quiet w model_files) as Hq.
    set (F := flat_map _ model_files) in *.
    set (valid := count_valid w model_files).
    set (total := Z.of_nat (length model_files)).
    clearbody F valid total.
    destruct (Z.ltb_spec valid total) as [Hlt|Hge].
    + split; split; intros _; try exact Hlt.
      * exists (Print LBanner :: F
                  ++ [Print LResultTitle; Print (LSummary total valid)]).
        cbn. rewrite <- app_assoc. reflexivity.
      * exists 1%nat. right. apply in_or_app. right. cbn. tauto.
    + split; split; intros H; try lia; exfalso.
      * destruct H as [before H].
        change warning_lines
          with ([Print (LWarning 1); Print (LWarning 2); Print (LWarning 3);
                 Print (LWarning 4)] ++ [Print (LWarning 5)]) in H.
        change (Print LBanner
                  :: F ++ [Print LResultTitle; Print (LSummary total valid)])
          with ((Print LBanner :: F) ++ [Print LResultTitle;
                                          Print (LSummary total valid)]) in H.
        change [Print LResultTitle; Print (LSummary total valid)]
          with ([Print LResultTitle] ++ [Print (LSummary total valid)]) in H.
        rewrite !app_assoc in H. apply app_inj_tail in H.
        destruct H as [_ H]. discriminate.
      * destruct H as [k [H|H]]; [discriminate|].
        apply in_app_or in H. destruct H as [H|H].
        -- apply (not_from_main _ _ Hq) in H. discriminate.
        -- cbn in H. destruct H as [H|[H|H]]; try discriminate. contradiction.
Qed.

Lemma validation_loop_invariant_witness :
  (exists valid total,
     counters_after Samples.w_static 3 = Ok (valid, total)
     /\ 0 <= valid <= total
     /\ total = Z.of_nat 3
     /\ valid = count_valid Samples.w_static (firstn 3 model_files))
  /\ (exists valid total,
        counters_after Samples.w_corrupt (length model_files)
          = Ok (valid, total)
        /\ (ends_with_warning_block (log (main Samples.w_corrupt))
            <-> valid < total)
        /\ ((exists k, In (Print (LWarning k)) (log (main Samples.w_corrupt)))
            <-> valid < total)).
Proof.
  split.
  - apply (proj1 (validation_loop_invariant Samples.w_static
                    (fun _ => eq_refl)) 3%nat).
    cbn. lia.
  - apply (proj2 (validation_loop_invariant Samples.w_corrupt
                    (fun _ => eq_refl))).
    reflexivity.
Defined.

(** * Further properties of the script *)

(** ** The compatibility expression, case by case *)

Lemma all_positive_raises_iff s e :
  all_positive s = Raise e <->
  exists pre d post,
    s = pre ++ d :: post /\ Forall positive_entry pre /\ gt_zero d = Raise e.
Proof.
  induction s as [|d s IH]; cbn [all_positive].
  - split; [discriminate|]. intros (pre & d & post & H & _).
    destruct pre; discriminate.
  - destruct (gt_zero d) as [[|]|e'] eqn:Hd.
    + rewrite IH. split.
      * intros (pre & d' & post & -> & Hpre & Hd').
        exists (d :: pre), d', post. repeat split; [|exact Hd'].
        constructor; [|exact Hpre].
        destruct d as [n| |]; try discriminate. cbn in Hd.
        exists n. split; [reflexivity|]. injection Hd as Hd. lia.
      * intros (pre & d' & post & H & Hpre & Hd').
        destruct pre as [|x pre]; cbn in H; injection H as <- ->.
        -- congruence.
        -- exists pre, d', post. inversion Hpre. auto.
    + split; [discriminate|].
      intros (pre & d' & post & H & Hpre & Hd').
      destruct pre as [|x pre]; cbn in H; injection H as <- ->.
      * congruence.
      * apply Forall_inv in Hpre as (n & -> & Hn). cbn in Hd.
        injection Hd as Hd. lia.
    + split.
      * intros [= ->]. exists [], d, s. repeat split; [constructor|exact Hd].
      * intros (pre & d' & post & H & Hpre & Hd').
        destruct pre as [|x pre]; cbn in H; injection H as <- ->.
        -- congruence.
        -- apply Forall_inv in Hpre as (n & -> & Hn). discriminate.
Qed.

Lemma all_positive_false_iff s :
  all_positive s = Ok false <->
  exists pre n post,
    s = pre ++ SInt n :: post /\ Forall positive_entry pre /\ n <= 0.
Proof.
  induction s as [|d s IH]; cbn [all_positive].
  - split; [discriminate|]. intros (pre & d & post & H & _).
    destruct pre; discriminate.
  - destruct (gt_zero d) as [[|]|e'] eqn:Hd.
    + rewrite IH. split.
      * intros (pre & n & post & -> & Hpre & Hn).
        exists (d :: pre), n, post. repeat split; [|exact Hn].
        constructor; [|exact Hpre].
        destruct d as [k| |]; try discriminate. cbn in Hd.
        exists k. split; [reflexivity|]. injection Hd as Hd. lia.
      * intros (pre & n & post & H & Hpre & Hn).
        destruct pre as [|x pre]; cbn in H; injection H as -> ->.
        -- cbn in Hd. injection Hd as Hd. lia.
        -- exists pre, n, post. inversion Hpre. auto.
    + split; [intros _|reflexivity].
      destruct d as [k| |]; try discriminate. cbn in Hd.
      exists [], k, s. repeat split; [constructor|].
      injection Hd as Hd. lia.
    + split; [discriminate|].
      intros (pre & n & post & H & Hpre & Hn).
      destruct pre as [|x pre]; cbn in H; injection H as -> ->.
      * discriminate.
      * apply Forall_inv in Hpre as (k & -> & Hk). discriminate.
Qed.

(** X3. The compatibility expression raises exactly when the input is
    called images, has four dimensions, and the first entry that is not a
    strictly positive int is a str or [None]; the exception is the
    [TypeError] of that comparison. *)
Theorem is_compatible_raises_iff i e :
  is_compatible i = Raise e <->
  name i = "images" /\ length (shape i) = 4%nat
  /\ exists pre d post,
       shape i = pre ++ d :: post /\ Forall positive_entry pre
       /\ (forall n, d <> SInt n)
       /\ e = Exn "TypeError"
                ("'>' not supported between instances of '" ++ type_name d
                 ++ "' and 'int'")%string.
Proof.
  assert (Hgt : forall d, gt_zero d = Raise e <->
            (forall n, d <> SInt n)
            /\ e = Exn "TypeError"
                     ("'>' not supported between instances of '"
                      ++ type_name d ++ "' and 'int'")%string).
  { intros [n| |]; cbn [gt_zero]; split.
    - discriminate.
    - intros (H & _). destruct (H n eq_refl).
    - intros [= <-]. split; [discriminate|reflexivity].
    - intros (_ & ->). reflexivity.
    - intros [= <-]. split; [discriminate|reflexivity].
    - intros (_ & ->). reflexivity. }
  unfold is_compatible.
  destruct (String.eqb_spec (name i) "images") as [Hn|Hn].
  - destruct (Z.eqb_spec (Z.of_nat (length (shape i))) 4) as [Hl|Hl].
    + rewrite all_positive_raises_iff. split.
      * intros (pre & d & post & Hs & Hpre & Hd).
        repeat split; [exact Hn|lia|]. exists pre, d, post.
        apply Hgt in Hd. tauto.
      * intros (_ & _ & pre & d & post & Hs & Hpre & Hd).
        exists pre, d, post. rewrite Hgt. tauto.
    + split; [discriminate|]. intros (_ & Hl' & _). lia.
  - split; [discriminate|]. intros (Hn' & _). contradiction.
Qed.

(** X4. The verdict is false exactly when the input is not called images,
    or does not have four dimensions, or the first entry that is not a
    strictly positive int is an int (zero or negative): entries after it,
    symbolic or not, are not looked at. *)
Theorem is_compatible_false_iff i :
  is_compatible i = Ok false <->
  name i <> "images" \/ length (shape i) <> 4%nat
  \/ exists pre n post,
       shape i = pre ++ SInt n :: post /\ Forall positive_entry pre /\ n <= 0.
Proof.
  unfold is_compatible.
  destruct (String.eqb_spec (name i) "images") as [Hn|Hn]; [|tauto].
  destruct (Z.eqb_spec (Z.of_nat (length (shape i))) 4) as [Hl|Hl].
  - rewrite all_positive_false_iff. split; [tauto|].
    intros [H|[H|H]]; [contradiction|lia|exact H].
  - split; [intros _|reflexivity]. right. left. lia.
Qed.

(** ** Every run ends in one concluding line *)

Lemma headers_app l1 l2 : headers (l1 ++ l2) = headers l1 ++ headers l2.
Proof.
  induction l1 as [|[x|c] l1 IH]; cbn; [reflexivity| |exact IH].
  destruct x; cbn; rewrite ?IH; reflexivity.
Qed.

Lemma introspection_lines m :
  forallb introspection_line (introspection m) = true.
Proof.
  unfold introspection. rewrite !forallb_app. cbn.
  assert (H : forall ts,
    forallb introspection_line
      (map (fun t => Print (LTensor (vi_name t) (render_shape t))) ts) = true)
    by (induction ts; cbn; auto).
  rewrite !H. reflexivity.
Qed.

Lemma in_introspection m e :
  In e (introspection m) -> introspection_line e = true.
Proof.
  intros H. pose proof (introspection_lines m) as Hall.
  rewrite forallb_forall in Hall. auto.
Qed.

Lemma existsb_introspection (f : event -> bool) m :
  (forall e, introspection_line e = true -> f e = false) ->
  existsb f (introspection m) = false.
Proof.
  intros Hf. destruct (existsb f (introspection m)) eqn:E; [|reflexivity].
  apply existsb_exists in E. destruct E as (e & Hin & He).
  apply in_introspection, Hf in Hin. congruence.
Qed.

Lemma concluding_introspection m :
  existsb concluding (introspection m) = false.
Proof.
  apply existsb_introspection. intros [[]|]; cbn; congruence.
Qed.

Lemma headers_introspection m : headers (introspection m) = [].
Proof.
  unfold introspection. rewrite !headers_app. cbn.
  assert (H : forall ts,
    headers (map (fun t => Print (LTensor (vi_name t) (render_shape t))) ts)
    = []) by (induction ts; cbn; auto).
  rewrite !H. reflexivity.
Qed.

Lemma guarded_cases w `{!PrintsReturn w} p :
  exists body e b,
    guarded w p = (Call (CallInferenceSession p) :: body ++ [e], Ok b)
    /\ existsb concluding body = false /\ headers body = []
    /\ ((b = true /\ exists v, e = Print (LCompat v))
        \/ (b = false /\ exists x, e = Print (LRuntimeError x))).
Proof.
  destruct (ort_InferenceSession w p) as [s|x] eqn:H.
  2:{ exists [], (Print (LRuntimeError x)), false.
      rewrite (guarded_session_raises _ _ _ H). eauto 8. }
  destruct (first (get_inputs s)) as [i|x] eqn:Hi.
  2:{ exists [], (Print (LRuntimeError x)), false.
      rewrite (guarded_input_raises _ _ _ _ H Hi). eauto 8. }
  destruct (first (get_outputs s)) as [o|x] eqn:Ho.
  2:{ exists [], (Print (LRuntimeError x)), false.
      rewrite (guarded_output_raises _ _ _ _ _ H Hi Ho). eauto 8. }
  destruct (is_compatible i) as [v|x] eqn:Hc.
  - exists (session_lines i o), (Print (LCompat v)), true.
    rewrite (guarded_verdict _ _ _ _ _ _ H Hi Ho Hc). eauto 8.
  - exists (session_lines i o), (Print (LRuntimeError x)), false.
    rewrite (guarded_compat_raises _ _ _ _ _ _ H Hi Ho Hc). eauto 8.
Qed.

(** A run is its header, a body without header or concluding line, and one
    concluding line that agrees with the value returned. *)
Lemma check_onnx_model_cases w `{!PrintsReturn w} p :
  exists body e b,
    check_onnx_model w p = (Print (LHeader (basename p)) :: body ++ [e], Ok b)
    /\ existsb concluding body = false /\ headers body = []
    /\ ((b = true /\ exists v, e = Print (LCompat v))
        \/ (b = false /\ failure_line e = true)).
Proof.
  destruct (os_stat w p) as [sz|] eqn:Hs.
  2:{ exists [], (Print LFileMissing), false.
      rewrite (check_onnx_model_missing _ _ Hs). auto 8. }
  rewrite (check_onnx_model_present _ _ _ Hs).
  destruct (onnx_load w p) as [m|x] eqn:Hl.
  2:{ exists [Print (LFileSize sz); Print LVerifying; Call (CallLoad p)],
        (Print (LVerifyFailed x)), false.
      rewrite (guarded_verify_load_raises _ _ _ Hl). auto 8. }
  destruct (check_model w m) as [u|x] eqn:Hc.
  2:{ exists [Print (LFileSize sz); Print LVerifying; Call (CallLoad p);
              Call (CallCheckModel m)],
        (Print (LVerifyFailed x)), false.
      rewrite (guarded_verify_check_raises _ _ _ _ Hl Hc). auto 8. }
  rewrite (guarded_verify_checked _ _ _ _ Hl Hc).
  destruct (guarded_cases w p) as (body & e & b & Hg & Hq & Hh & Hb).
  rewrite Hg. cbn [log outcome fst snd].
  exists (Print (LFileSize sz) :: Print LVerifying :: Call (CallLoad p)
            :: Call (CallCheckModel m) :: Print LStructureOk
            :: introspection m
            ++ Print LSessionTest :: Call (CallInferenceSession p) :: body),
    e, b.
  split; [|split; [|split]].
  - cbn -[introspection]. rewrite <- !app_assoc. reflexivity.
  - cbn -[introspection]. rewrite existsb_app, concluding_introspection.
    cbn. exact Hq.
  - cbn -[introspection]. rewrite headers_app, headers_introspection.
    cbn. exact Hh.
  - destruct Hb as [(-> & v & ->)|(-> & x & ->)]; eauto.
Qed.

Lemma ends_with_unique l e1 e2 : ends_with l e1 -> ends_with l e2 -> e1 = e2.
Proof.
  intros [b1 ->] [b2 H]. apply app_inj_tail in H. tauto.
Qed.

Lemma filter_quiet (f : event -> bool) l :
  existsb f l = false -> filter f l = [].
Proof.
  induction l as [|a l IH]; cbn; [reflexivity|].
  destruct (f a); cbn; [discriminate|exact IH].
Qed.

(** X6. Every print returning, every run of [check_onnx_model] prints
    exactly one concluding line
    (a verdict line or one of the three failure lines), as its last line:
    the function returns [True] exactly when that line is a verdict line and
    [False] exactly when it is a failure line. *)
Theorem concluding_line_decides w p :
  PrintsReturn w ->
  let l := log (check_onnx_model w p) in
  (outcome (check_onnx_model w p) = Ok true <->
   exists v, ends_with l (Print (LCompat v)))
  /\ (outcome (check_onnx_model w p) = Ok false <->
      exists e, failure_line e = true /\ ends_with l e)
  /\ length (filter concluding l) = 1%nat.
Proof.
  intros Hout.
  destruct (check_onnx_model_cases w p) as (body & e & b & Hrun & Hq & _ & Hb).
  rewrite Hrun. cbn [log outcome fst snd].
  assert (Hend : ends_with (Print (LHeader (basename p)) :: body ++ [e]) e)
    by ends_with_tail.
  split; [|split].
  - split.
    + intros [= ->]. destruct Hb as [(_ & v & ->)|(? & _)]; [eauto|discriminate].
    + intros (v & Hv). pose proof (ends_with_unique _ _ _ Hend Hv) as ->.
      destruct Hb as [(-> & _)|(_ & ?)]; [reflexivity|discriminate].
  - split.
    + intros [= ->]. destruct Hb as [(? & _)|(_ & He)]; [discriminate|eauto].
    + intros (e' & He' & Hv). pose proof (ends_with_unique _ _ _ Hend Hv) as <-.
      destruct Hb as [(_ & v & ->)|(-> & _)]; [discriminate|reflexivity].
  - cbn [filter concluding verdict_line failure_line orb].
    rewrite filter_app, (filter_quiet _ _ Hq). cbn [filter app].
    destruct Hb as [(_ & v & ->)|(_ & He)]; [reflexivity|].
    unfold concluding. rewrite He, orb_true_r. reflexivity.
Qed.

Lemma concluding_line_decides_witness :
  length (filter concluding
            (log (check_onnx_model Samples.w_static "/models/yolov8s.onnx")))
  = 1%nat.
Proof.
  apply (proj2 (proj2 (concluding_line_decides Samples.w_static
                         "/models/yolov8s.onnx" (fun _ => eq_refl)))).
Defined.

Lemma headers_check_onnx_model w `{!PrintsReturn w} p :
  headers (log (check_onnx_model w p)) = [basename p].
Proof.
  destruct (check_onnx_model_cases w p) as (body & e & b & Hrun & _ & Hh & Hb).
  rewrite Hrun. cbn [log fst headers]. rewrite headers_app, Hh. cbn [app].
  destruct Hb as [(_ & v & ->)|(_ & He)]; [reflexivity|].
  destruct e as [[]|]; try discriminate; reflexivity.
Qed.

(** ** When a model is reported valid *)

Lemma verdict_reached_valid w `{!PrintsReturn w} p v :
  verdict_reached w p v ->
  check_onnx_model w p =
  (fst (check_onnx_model w p), Ok true)
  /\ ends_with (log (check_onnx_model w p)) (Print (LCompat v)).
Proof.
  unfold verdict_reached, path_exists.
  intros (Hex & m & s & i & o & Hl & Hc & Hr & Hi & Ho & Hv).
  destruct (os_stat w p) as [sz|] eqn:Hs; [clear Hex|discriminate].
  rewrite (check_onnx_model_present _ _ _ Hs).
  rewrite (guarded_verify_checked _ _ _ _ Hl Hc),
    (guarded_verdict _ _ _ _ _ _ Hr Hi Ho Hv).
  split; [reflexivity|]. cbn [fst log]. ends_with_tail.
Qed.

(** X5. Every print returning, [check_onnx_model] returns [True] exactly
    when the file exists, the
    model loads and passes the structural check, the session is created,
    has a first input and a first output, and the compatibility expression
    evaluates to a boolean, whichever it is. *)
Theorem check_onnx_model_true_iff w p :
  PrintsReturn w ->
  (outcome (check_onnx_model w p) = Ok true <->
   exists v, verdict_reached w p v).
Proof.
  intros Hout. split.
  - unfold verdict_reached, path_exists.
    destruct (os_stat w p) as [sz|] eqn:Hs.
    2:{ rewrite (check_onnx_model_missing _ _ Hs). discriminate. }
    rewrite (check_onnx_model_present _ _ _ Hs). cbn [log outcome fst snd].
    destruct (onnx_load w p) as [m|e] eqn:Hl.
    2:{ rewrite (guarded_verify_load_raises _ _ _ Hl). discriminate. }
    destruct (check_model w m) as [[]|e] eqn:Hc.
    2:{ rewrite (guarded_verify_check_raises _ _ _ _ Hl Hc). discriminate. }
    rewrite (guarded_verify_checked _ _ _ _ Hl Hc). cbn [log outcome fst snd].
    destruct (ort_InferenceSession w p) as [s|e] eqn:Hr.
    2:{ rewrite (guarded_session_raises _ _ _ Hr). discriminate. }
    destruct (first (get_inputs s)) as [i|e] eqn:Hi.
    2:{ rewrite (guarded_input_raises _ _ _ _ Hr Hi). discriminate. }
    destruct (first (get_outputs s)) as [o|e] eqn:Ho.
    2:{ rewrite (guarded_output_raises _ _ _ _ _ Hr Hi Ho). discriminate. }
    destruct (is_compatible i) as [v|e] eqn:Hv.
    2:{ rewrite (guarded_compat_raises _ _ _ _ _ _ Hr Hi Ho Hv). discriminate. }
    intros _. exists v. split; [reflexivity|]. exists m, s, i, o. auto 8.
  - intros (v & H). apply (verdict_reached_valid w) in H as (H & _).
    rewrite H. reflexivity.
Qed.

Lemma check_onnx_model_true_iff_witness :
  outcome (check_onnx_model Samples.w_renamed "/models/yolov8s.onnx") = Ok true
  <-> exists v, verdict_reached Samples.w_renamed "/models/yolov8s.onnx" v.
Proof.
  apply (check_onnx_model_true_iff Samples.w_renamed "/models/yolov8s.onnx"
           (fun _ => eq_refl)).
Defined.

Lemma in_log_present w `{!PrintsReturn w} p sz m e :
  os_stat w p = Some sz -> onnx_load w p = Ok m -> check_model w m = Ok tt ->
  In e (log (check_onnx_model w p)) ->
  In e [Print (LHeader (basename p)); Print (LFileSize sz); Print LVerifying;
        Call (CallLoad p); Call (CallCheckModel m); Print LStructureOk;
        Print LSessionTest]
  \/ introspection_line e = true
  \/ In e (log (guarded w p)).
Proof.
  intros Hs Hl Hc. rewrite (check_onnx_model_present _ _ _ Hs).
  cbn [log outcome fst snd].
  rewrite (guarded_verify_checked _ _ _ _ Hl Hc). cbn -[introspection].
  intros H. repeat (destruct H as [<-|H]; [left; cbn; tauto|]).
  apply in_app_or in H. destruct H as [H|H].
  - right. left. apply (in_introspection _ _ H).
  - destruct H as [<-|H]; [left; cbn; tauto|]. right. right. exact H.
Qed.

(** X7. Every print returning, a session that opens but lists no input, or no output, is reported
    as a runtime error: indexing the empty list raises [IndexError], the
    session-created line is never printed, and the function returns
    [False]. *)
Theorem session_without_input_or_output w p m s :
  PrintsReturn w ->
  path_exists w p = true ->
  onnx_load w p = Ok m -> check_model w m = Ok tt ->
  ort_InferenceSession w p = Ok s ->
  get_inputs s = [] \/ get_outputs s = [] ->
  outcome (check_onnx_model w p) = Ok false
  /\ ends_with (log (check_onnx_model w p))
       (Print (LRuntimeError (Exn "IndexError" "list index out of range")))
  /\ ~ In (Print LSessionOk) (log (check_onnx_model w p)).
Proof.
  unfold path_exists. intros Hout Hex Hl Hc Hr Hempty.
  destruct (os_stat w p) as [sz|] eqn:Hs; [clear Hex|discriminate].
  assert (Hg : guarded w p =
    ([Call (CallInferenceSession p);
      Print (LRuntimeError (Exn "IndexError" "list index out of range"))],
     Ok false)).
  { destruct (get_inputs s) as [|i ins] eqn:Hi.
    - apply (guarded_input_raises _ _ s); [exact Hr|]. rewrite Hi. reflexivity.
    - destruct Hempty as [?|Ho]; [discriminate|].
      apply (guarded_output_raises _ _ s i); [exact Hr| |].
      + rewrite Hi. reflexivity.
      + rewrite Ho. reflexivity. }
  split; [|split].
  - rewrite (check_onnx_model_present _ _ _ Hs). cbn [log outcome fst snd].
    rewrite (guarded_verify_checked _ _ _ _ Hl Hc), Hg. reflexivity.
  - rewrite (check_onnx_model_present _ _ _ Hs). cbn [log outcome fst snd].
    rewrite (guarded_verify_checked _ _ _ _ Hl Hc), Hg. cbn [fst log].
    ends_with_tail.
  - intros H. apply (in_log_present _ _ _ _ _ Hs Hl Hc) in H.
    rewrite Hg in H. cbn in H.
    repeat (destruct H as [H|H]; try discriminate); contradiction.
Qed.

Lemma session_without_input_or_output_witness :
  outcome (check_onnx_model Cases.w_no_inputs "/models/yolov8s.onnx")
    = Ok false
  /\ ends_with (log (check_onnx_model Cases.w_no_inputs "/models/yolov8s.onnx"))
       (Print (LRuntimeError (Exn "IndexError" "list index out of range")))
  /\ ~ In (Print LSessionOk)
         (log (check_onnx_model Cases.w_no_inputs "/models/yolov8s.onnx")).
Proof.
  apply (session_without_input_or_output Cases.w_no_inputs
           "/models/yolov8s.onnx" Samples.yolo_proto
           {| get_inputs := []; get_outputs := [Samples.output0] |}
           (fun _ => eq_refl));
    try reflexivity.
  left. reflexivity.
Defined.

(** ** What a printed graph shape can show *)

(** X13. A printed graph shape has one entry per dimension; a number in it
    is always a strictly positive [dim_value] that is set in the model, and
    'dynamic' stands for any dimension whose [dim_value] reads zero or
    negative: symbolic, unset, zero and negative ones alike. *)
Theorem render_shape_entries t :
  length (render_shape t) = length (vi_dim t)
  /\ (forall v, In (RValue v) (render_shape t) <->
                0 < v /\ In (DimValue v) (vi_dim t))
  /\ (In RDynamic (render_shape t) <->
      exists d, In d (vi_dim t) /\ dim_value d <= 0).
Proof.
  unfold render_shape. split; [apply length_map|]. split.
  - intros v. rewrite in_map_iff. split.
    + intros (d & Hd & Hin). unfold render_dim in Hd.
      destruct (Z.gtb_spec (dim_value d) 0) as [Hpos|]; [|discriminate].
      injection Hd as <-. split; [lia|].
      destruct d as [x| |]; cbn in *; [exact Hin|lia|lia].
    + intros (Hpos & Hin). exists (DimValue v). split; [|exact Hin].
      unfold render_dim. cbn.
      destruct (Z.gtb_spec v 0); [reflexivity|lia].
  - rewrite in_map_iff. split.
    + intros (d & Hd & Hin). exists d. split; [exact Hin|].
      unfold render_dim in Hd.
      destruct (Z.gtb_spec (dim_value d) 0); [discriminate|lia].
    + intros (d & Hin & Hle). exists d. split; [|exact Hin].
      unfold render_dim. destruct (Z.gtb_spec (dim_value d) 0); [lia|reflexivity].
Qed.

(** ** Paths *)

Lemma basename_from_no_slash cur p :
  has_slash p = false -> basename_from cur p = cur.
Proof.
  revert cur. induction p as [|c p IH]; intros cur H; [reflexivity|].
  cbn in *. apply orb_false_iff in H as (Hc & Hp). rewrite Hc. auto.
Qed.

Lemma basename_from_app_slash cur a f :
  basename_from cur (a ++ String "/" f)%string = basename f.
Proof.
  revert cur. induction a as [|c a IH]; intros cur; cbn.
  - reflexivity.
  - destruct (Ascii.eqb c "/"); apply IH.
Qed.

Lemma ends_with_slash_split a :
  ends_with_slash a = true -> exists a', a = (a' ++ "/")%string.
Proof.
  induction a as [|c a IH]; [discriminate|].
  cbn. destruct a as [|c' a].
  - intros H. apply Ascii.eqb_eq in H as ->. exists "". reflexivity.
  - intros H. destruct (IH H) as (a' & ->). exists (String c a'). reflexivity.
Qed.

Lemma string_app_assoc (a b c : string) :
  ((a ++ b) ++ c = a ++ (b ++ c))%string.
Proof. induction a as [|x a IH]; cbn; [reflexivity|]. now rewrite IH. Qed.

(** X8. Joining a directory and a file name that holds no slash, then
    taking the base name, gives the file name back, whatever the directory:
    the header of a run names the file alone. *)
Theorem basename_path_join a f :
  has_slash f = false -> basename (path_join a f) = f.
Proof.
  intros Hf.
  assert (Hbase : basename f = f) by (apply basename_from_no_slash, Hf).
  unfold path_join.
  assert (starts_with_slash f = false) as ->.
  { destruct f as [|c f]; [reflexivity|]. cbn in *.
    apply orb_false_iff in Hf. tauto. }
  destruct (String.eqb_spec a "") as [->|Ha]; cbn [orb].
  - exact Hbase.
  - destruct (ends_with_slash a) eqn:He.
    + destruct (ends_with_slash_split _ He) as (a' & ->).
      rewrite string_app_assoc. cbn [append].
      unfold basename at 1. rewrite basename_from_app_slash. exact Hbase.
    + unfold basename at 1. cbn [append].
      rewrite basename_from_app_slash. exact Hbase.
Qed.

Lemma basename_path_join_witness :
  basename (path_join "/opt/models/" "yolov8s-seg.onnx") = "yolov8s-seg.onnx".
Proof.
  apply (basename_path_join "/opt/models/" "yolov8s-seg.onnx"). reflexivity.
Defined.

(** ** main as a whole *)

Lemma calls_check_onnx_model w `{!PrintsReturn w} p :
  calls (log (check_onnx_model w p)) =
  match os_stat w p with
  | None => []
  | Some _ =>
      match onnx_load w p with
      | Raise _ => [CallLoad p]
      | Ok m =>
          match check_model w m with
          | Raise _ => [CallLoad p; CallCheckModel m]
          | Ok _ => [CallLoad p; CallCheckModel m; CallInferenceSession p]
          end
      end
  end.
Proof.
  destruct (os_stat w p) as [sz|] eqn:Hs.
  2:{ rewrite (check_onnx_model_missing _ _ Hs). reflexivity. }
  rewrite (check_onnx_model_present _ _ _ Hs). cbn [log outcome fst snd].
  destruct (onnx_load w p) as [m|e] eqn:Hl.
  2:{ rewrite (guarded_verify_load_raises _ _ _ Hl). reflexivity. }
  destruct (check_model w m) as [u|e] eqn:Hc.
  2:{ rewrite (guarded_verify_check_raises _ _ _ _ Hl Hc). reflexivity. }
  rewrite (guarded_verify_checked _ _ _ _ Hl Hc).
  destruct (guarded_returns w p) as (tail & b & Hg & Hcalls & _).
  rewrite Hg. cbn -[introspection].
  rewrite !calls_app, calls_introspection. cbn. rewrite Hcalls. reflexivity.
Qed.

Lemma calls_report w `{!PrintsReturn w} valid total : calls (log (report w valid total)) = [].
Proof. rewrite (report_log w). destruct (valid <? total); reflexivity. Qed.

Lemma headers_report w `{!PrintsReturn w} valid total : headers (log (report w valid total)) = [].
Proof. rewrite (report_log w). destruct (valid <? total); reflexivity. Qed.

Lemma main_dir_missing w `{!PrintsReturn w} :
  path_exists w models_dir = false ->
  main w = ([Print LBanner; Print (LDirMissing models_dir)], Ok tt).
Proof.
  intros H. unfold main. rewrite H. cbn [negb].
  rewrite !(print_returns w). reflexivity.
Qed.





Lemma headers_validation_loop w `{!PrintsReturn w} files :
  headers (flat_map (fun f => log (check_onnx_model w (path_join models_dir f)))
             files)
  = map (fun f => basename (path_join models_dir f)) files.
Proof.
  induction files as [|f files IH]; [reflexivity|].
  cbn [flat_map map]. rewrite headers_app, (headers_check_onnx_model w), IH.
  reflexivity.
Qed.

(** X9. When the models directory exists and every print returns, the
    headers printed by [main]
    are the five file names of the list, bare and in order, one per file,
    whether or not the files exist. *)
Theorem main_headers w :
  PrintsReturn w ->
  path_exists w models_dir = true ->
  headers (log (main w)) = model_files.
Proof.
  intros Hout Hex. rewrite (main_run _ Hex). cbn [log fst headers].
  rewrite headers_app, (headers_validation_loop w), (headers_report w), app_nil_r.
  reflexivity.
Qed.

Lemma main_headers_witness :
  headers (log (main Samples.w_corrupt)) = model_files.
Proof.
  apply (main_headers Samples.w_corrupt (fun _ => eq_refl)). reflexivity.
Defined.

Lemma in_calls_validation_loop w files c :
  In c (calls (flat_map
                 (fun f => log (check_onnx_model w (path_join models_dir f)))
                 files)) ->
  exists f, In f files
            /\ In c (calls (log (check_onnx_model w (path_join models_dir f)))).
Proof.
  induction files as [|f files IH]; cbn [flat_map]; [intros []|].
  rewrite calls_app. intros H. apply in_app_or in H. destruct H as [H|H].
  - exists f. split; [left; reflexivity|exact H].
  - destruct (IH H) as (g & Hg & Hc). exists g. split; [right; exact Hg|exact Hc].
Qed.

(** X2. Every print returning, every library call made by [main] is made on one of the five
    listed files, joined to the models directory, and only if that file
    exists: [onnx.load] and the session constructor get that path, the
    checker gets the model loaded from it. *)
Theorem main_calls_confined w c :
  PrintsReturn w ->
  In c (calls (log (main w))) ->
  exists f,
    In f model_files
    /\ path_exists w (path_join models_dir f) = true
    /\ call_on w (path_join models_dir f) c.
Proof.
  intros Hout. destruct (path_exists w models_dir) eqn:Hex.
  2:{ rewrite (main_dir_missing _ Hex). intros []. }
  rewrite (main_run _ Hex). cbn [log fst calls].
  rewrite calls_app, (calls_report w), app_nil_r. intros H.
  apply in_calls_validation_loop in H. destruct H as (f & Hf & H).
  exists f. split; [exact Hf|].
  rewrite (calls_check_onnx_model w) in H. unfold path_exists, call_on.
  destruct (os_stat w (path_join models_dir f)); [|destruct H].
  split; [reflexivity|].
  destruct (onnx_load w (path_join models_dir f)) as [m|e].
  - destruct (check_model w m); cbn in H; intuition eauto.
  - cbn in H. intuition.
Qed.

Lemma main_calls_confined_witness :
  exists f,
    In f model_files
    /\ path_exists Samples.w_corrupt (path_join models_dir f) = true
    /\ call_on Samples.w_corrupt (path_join models_dir f)
         (CallLoad (path_join models_dir "yolov8s.onnx")).
Proof.
  apply (main_calls_confined Samples.w_corrupt _ (fun _ => eq_refl)).
  cbn. left. reflexivity.
Defined.

(** ** The summary and the warning *)

Lemma main_summary w `{!PrintsReturn w} :
  path_exists w models_dir = true ->
  In (Print (LSummary 5 (count_valid w model_files))) (log (main w)).
Proof.
  intros Hex. rewrite (main_run _ Hex). cbn [log fst].
  right. apply in_or_app. right. rewrite (report_log w). right. left. reflexivity.
Qed.

Lemma main_warns_iff w `{!PrintsReturn w} :
  path_exists w models_dir = true ->
  (exists k, In (Print (LWarning k)) (log (main w))) <->
  count_valid w model_files < Z.of_nat (length model_files).
Proof.
  intros Hex. rewrite (main_run _ Hex). cbn [log fst]. rewrite (report_log w).
  pose proof (validation_loop_quiet w model_files) as Hq.
  set (F := flat_map _ model_files) in *. clearbody F.
  destruct (Z.ltb_spec (count_valid w model_files)
              (Z.of_nat (length model_files))) as [Hlt|Hge].
  - split; [intros _; exact Hlt|intros _].
    exists 1%nat. right. apply in_or_app. right. cbn. tauto.
  - split; [|lia]. intros (k & [H|H]); [discriminate|].
    apply in_app_or in H. destruct H as [H|H].
    + apply (not_from_main _ _ Hq) in H. discriminate.
    + cbn in H. destruct H as [H|[H|H]]; try discriminate. contradiction.
Qed.

Lemma count_valid_short_iff w files :
  count_valid w files < Z.of_nat (length files) <->
  exists f, In f files
            /\ outcome (check_onnx_model w (path_join models_dir f)) <> Ok true.
Proof.
  induction files as [|f files IH]; cbn [count_valid length].
  - split; [lia|]. intros (f & [] & _).
  - pose proof (count_valid_bounds w files) as Hb.
    destruct (outcome (check_onnx_model w (path_join models_dir f)))
      as [[|]|e] eqn:Ho.
    + split.
      * intros H. assert (H' : count_valid w files < Z.of_nat (length files))
          by lia.
        apply IH in H' as (g & Hg & Hn). exists g. split; [right|]; assumption.
      * intros (g & [<-|Hg] & Hn); [congruence|].
        assert (count_valid w files < Z.of_nat (length files))
          by (apply IH; eauto).
        lia.
    + split; [intros _|lia]. exists f. split; [left; reflexivity|congruence].
    + split; [intros _|lia]. exists f. split; [left; reflexivity|congruence].
Qed.

Lemma count_valid_none w `{!PrintsReturn w} files :
  (forall f, In f files -> path_exists w (path_join models_dir f) = false) ->
  count_valid w files = 0
  /\ calls (flat_map
              (fun f => log (check_onnx_model w (path_join models_dir f)))
              files) = [].
Proof.
  induction files as [|f files IH]; intros H; [split; reflexivity|].
  cbn [count_valid flat_map].
  assert (Hs : os_stat w (path_join models_dir f) = None).
  { pose proof (H f (or_introl eq_refl)) as Hf. unfold path_exists in Hf.
    destruct (os_stat w (path_join models_dir f)); [discriminate|reflexivity]. }
  rewrite (check_onnx_model_missing _ _ Hs). cbn [outcome snd log fst].
  destruct IH as (-> & Hc); [intros g Hg; apply H; right; exact Hg|].
  split; [reflexivity|]. rewrite calls_app, Hc. reflexivity.
Qed.

(** X10. When the models directory exists and every print returns, the
    warning block is printed
    exactly when some file of the list is not reported valid by
    [check_onnx_model]: missing, unreadable, rejected by the checker or by
    the runtime. *)
Theorem warning_iff_some_file_not_valid w :
  PrintsReturn w ->
  path_exists w models_dir = true ->
  (exists k, In (Print (LWarning k)) (log (main w))) <->
  exists f,
    In f model_files
    /\ outcome (check_onnx_model w (path_join models_dir f)) <> Ok true.
Proof.
  intros Hout Hex. rewrite (main_warns_iff _ Hex).
  apply count_valid_short_iff.
Qed.

Lemma warning_iff_some_file_not_valid_witness :
  (exists k, In (Print (LWarning k)) (log (main Samples.w_corrupt))) <->
  exists f,
    In f model_files
    /\ outcome (check_onnx_model Samples.w_corrupt (path_join models_dir f))
       <> Ok true.
Proof.
  apply (warning_iff_some_file_not_valid Samples.w_corrupt (fun _ => eq_refl)).
  reflexivity.
Defined.

(** X11. When every print returns, the models directory exists and, for each of the five files,
    the run reaches a compatibility verdict, [main] reports 5 of 5 valid and
    prints no warning, whatever the verdicts are: a list of models that all
    fail the YoloDotNet check ends without a warning. *)
Theorem all_verdicts_reached_no_warning w :
  PrintsReturn w ->
  path_exists w models_dir = true ->
  (forall f, In f model_files ->
     exists v, verdict_reached w (path_join models_dir f) v) ->
  In (Print (LSummary 5 5)) (log (main w))
  /\ forall k, ~ In (Print (LWarning k)) (log (main w)).
Proof.
  intros Hout Hex Hall.
  assert (Hfull : ~ count_valid w model_files
                    < Z.of_nat (length model_files)).
  { rewrite count_valid_short_iff. intros (f & Hf & Hn).
    destruct (Hall f Hf) as (v & Hv).
    apply (verdict_reached_valid w) in Hv as (Hv & _).
    apply Hn. rewrite Hv. reflexivity. }
  pose proof (count_valid_bounds w model_files) as Hb.
  assert (Hcount : count_valid w model_files = 5)
    by (change (Z.of_nat (length model_files)) with 5 in *; lia).
  split.
  - rewrite <- Hcount at 2. apply (main_summary _ Hex).
  - intros k Hk. apply Hfull. apply (main_warns_iff _ Hex). eauto.
Qed.

Lemma all_verdicts_reached_no_warning_witness :
  In (Print (LSummary 5 5)) (log (main Samples.w_renamed))
  /\ forall k, ~ In (Print (LWarning k)) (log (main Samples.w_renamed)).
Proof.
  apply (all_verdicts_reached_no_warning Samples.w_renamed (fun _ => eq_refl));
    [reflexivity|].
  intros f _. exists false. split; [reflexivity|].
  exists Samples.yolo_proto, (Samples.session_of Samples.input_224),
    Samples.input_224, Samples.output0.
  repeat split.
Defined.

(** X12. When every print returns and the models directory exists but none of the five files does,
    [main] calls no library at all, reports 0 of 5 valid and closes with the
    warning block. *)
Theorem no_model_file_present w :
  PrintsReturn w ->
  path_exists w models_dir = true ->
  (forall f, In f model_files ->
     path_exists w (path_join models_dir f) = false) ->
  calls (log (main w)) = []
  /\ In (Print (LSummary 5 0)) (log (main w))
  /\ ends_with_warning_block (log (main w)).
Proof.
  intros Hout Hex Hnone.
  destruct (count_valid_none _ _ Hnone) as (Hcount & Hcalls).
  split; [|split].
  - rewrite (main_run _ Hex). cbn [log fst calls].
    rewrite calls_app, (calls_report w), Hcalls. reflexivity.
  - rewrite <- Hcount. apply (main_summary _ Hex).
  - rewrite (main_run _ Hex). cbn [log fst]. rewrite (report_log w), Hcount.
    cbn [length model_files Z.of_nat Z.ltb Z.compare Pos.of_succ_nat Pos.succ].
    eexists (Print LBanner :: _ ++ [Print LResultTitle; Print (LSummary _ 0)]).
    cbn [app]. rewrite <- app_assoc. reflexivity.
Qed.

Lemma no_model_file_present_witness :
  calls (log (main Cases.w_only_dir)) = []
  /\ In (Print (LSummary 5 0)) (log (main Cases.w_only_dir))
  /\ ends_with_warning_block (log (main Cases.w_only_dir)).
Proof.
  apply (no_model_file_present Cases.w_only_dir (fun _ => eq_refl));
    [reflexivity|].
  intros f Hf. cbn in Hf.
  repeat (destruct Hf as [<-|Hf]; [reflexivity|]). destruct Hf.
Defined.

(** ** The cases at work *)

Example zero_before_symbolic_is_false :
  is_compatible Cases.images_zero_first = Ok false.
Proof. reflexivity. Qed.

Example symbolic_on_other_name_is_false :
  is_compatible Cases.input_dynamic = Ok false.
Proof. reflexivity. Qed.

Example unknown_width_raises :
  is_compatible Cases.images_unknown_width =
  Raise (Exn "TypeError"
           "'>' not supported between instances of 'NoneType' and 'int'").
Proof. reflexivity. Qed.

Example odd_tensor_rendered :
  render_shape Cases.odd_tensor =
  [RDynamic; RDynamic; RValue 7; RDynamic; RDynamic].
Proof. reflexivity. Qed.
